(** * bun-url-switcher: the URL registry handlers over the [urls] table

    The repository holds three database-backed servers that expose the same
    routes, and one minimal server without a database:

    - [VercelSql]      raw SQL through [@vercel/postgres] ([sql`...`]),
    - [VercelDrizzle]  drizzle over [@vercel/postgres], with [initializeDatabase],
    - [PostgresJs]     drizzle over [postgres.js],
    - [Minimal]        [server.ts], "Minimal test version".

    The table is a list of rows; a statement runs against the table or throws.
    Handlers are functions from the database to a response envelope and the
    database afterwards.  The values the handlers draw from their environment
    ([crypto.randomUUID()], [new Date()], SQL's current time) are arguments. *)

From Stdlib Require Import ZArith List Bool Lia Sorted Permutation.
From stdpp Require Import base tactics option list sorting gmap strings.

(** ** Data model *)

(** A [Date] / SQL [timestamp]: milliseconds since the epoch. *)
Definition Timestamp : Type := Z.
Bind Scope Z_scope with Timestamp.

(** A JS [Record<string, string>], stored in a [jsonb] column. *)
Abbreviation SubUrls := (gmap string string).

(** A row of [urls], as [urlsTable] of [db/schema.ts] declares it
    ([$inferSelect]); the raw SQL server's [UrlItem] has the same fields. *)
Record UrlRow : Type := mkUrlRow {
  id : string;
  name : string;
  mainUrl : string;
  subUrls : SubUrls;
  isDeleted : bool;
  deletedAt : option Timestamp;
  createdAt : Timestamp;
  updatedAt : Timestamp
}.

(** The database behind a handler: whether the connection answers, and the
    rows of [urls] in storage order. *)
Record Db : Type := mkDb {
  connected : bool;
  urls : list UrlRow
}.

(** [id] is the PRIMARY KEY of [urls]. *)
Definition pk_ok (rows : list UrlRow) : Prop := NoDup (map id rows).

(** ** Statements: state passing with exceptions *)

(** A statement or a handler body: [None] is a thrown exception; the database
    is threaded through either way. *)
Definition Query (A : Type) : Type := Db → option A * Db.

Global Instance Query_ret : MRet Query := λ A a db, (Some a, db).
Global Instance Query_bind : MBind Query := λ A B k c db,
  match c db with
  | (Some a, db') => k a db'
  | (None, db') => (None, db')
  end.

Global Instance Query_fmap : FMap Query := λ A B f c db,
  match c db with
  | (Some a, db') => (Some (f a), db')
  | (None, db') => (None, db')
  end.

(** [try { body } catch (error) { return h }] *)
Definition try_catch {A} (body : Query A) (h : A) (db : Db) : A * Db :=
  match body db with
  | (Some a, db') => (a, db')
  | (None, db') => (h, db')
  end.

(** [eq(urlsTable.id, id)] / [WHERE id = ${id}] *)
Definition eq_id (x : string) (r : UrlRow) : bool := String.eqb (id r) x.

(** [eq(urlsTable.isDeleted, false)] / [WHERE "isDeleted" = false] *)
Definition eq_isDeleted (b : bool) (r : UrlRow) : bool := Bool.eqb (isDeleted r) b.

(** [and(p, q)] *)
Definition and_ (p q : UrlRow → bool) (r : UrlRow) : bool := p r && q r.

(** [SELECT ... FROM urls WHERE p] *)
Definition select_where (p : UrlRow → bool) : Query (list UrlRow) := λ db,
  if connected db then (Some (List.filter p (urls db)), db) else (None, db).

(** [SELECT ... FROM urls] *)
Definition select_all : Query (list UrlRow) := select_where (λ _, true).

(** [ORDER BY name ASC], in the byte order of the names. *)
Definition name_le (r1 r2 : UrlRow) : Prop := String.le (name r1) (name r2).

Global Instance name_le_dec : RelDecision name_le.
Proof. intros r1 r2. unfold name_le. apply _. Defined.

Definition orderBy_name (rows : list UrlRow) : list UrlRow :=
  merge_sort name_le rows.

(** [LIMIT n] *)
Definition limit (n : nat) (rows : list UrlRow) : list UrlRow := take n rows.

(** [INSERT INTO urls (id, name, main_url, sub_urls, is_deleted) VALUES (...)
    RETURNING *].  The columns that are not listed take the defaults of
    [urlsTable]: [deleted_at] NULL, [created_at] and [updated_at] [now()].
    A second row with the same primary key is refused. *)
Definition insert_values (i n m : string) (s : SubUrls) (d : bool)
    (now : Timestamp) : Query UrlRow := λ db,
  if connected db then
    if existsb (eq_id i) (urls db) then (None, db)
    else
      let r := mkUrlRow i n m s d None now now in
      (Some r, mkDb (connected db) (urls db ++ [r]))
  else (None, db).

(** [UPDATE urls SET ... WHERE p RETURNING *]: [set] is applied to every row
    that satisfies [p]; the rows it wrote are returned. *)
Definition update_where (p : UrlRow → bool) (set : UrlRow → UrlRow)
    : Query (list UrlRow) := λ db,
  if connected db then
    (Some (map set (List.filter p (urls db))),
     mkDb (connected db) (map (λ r, if p r then set r else r) (urls db)))
  else (None, db).

(** [SET name = .., main_url = .., sub_urls = .., updated_at = ..] *)
Definition set_contents (n m : string) (s : SubUrls) (now : Timestamp)
    (r : UrlRow) : UrlRow :=
  mkUrlRow (id r) n m s (isDeleted r) (deletedAt r) (createdAt r) now.

(** [SET is_deleted = true, deleted_at = ..] *)
Definition set_deleted (now : Timestamp) (r : UrlRow) : UrlRow :=
  mkUrlRow (id r) (name r) (mainUrl r) (subUrls r) true (Some now)
    (createdAt r) (updatedAt r).

(** ** Requests and responses *)

(** The body of a POST or PUT request as the client sends it: [raw_name]
    and [raw_mainUrl] are [None] when the property is missing or is not a
    string; [raw_subUrls] is [None] when the property is missing and
    [Some None] when it is there but is not a record of strings. *)
Record RawBody : Type := mkRawBody {
  raw_name : option string;
  raw_mainUrl : option string;
  raw_subUrls : option (option SubUrls)
}.

(** The body a handler receives: [{ name: string; mainUrl: string;
    subUrls?: Record<string, string> }]. *)
Record Body : Type := mkBody {
  body_name : string;
  body_mainUrl : string;
  body_subUrls : option SubUrls
}.

(** The schema every POST and PUT route declares:
    [body: t.Object({ name: t.String(), mainUrl: t.String(),
    subUrls: t.Optional(t.Record(t.String(), t.String())) })].  [None] is a
    body the schema refuses. *)
Definition t_Object (raw : RawBody) : option Body :=
  match raw_name raw, raw_mainUrl raw, raw_subUrls raw with
  | Some n, Some m, None => Some (mkBody n m None)
  | Some n, Some m, Some (Some s) => Some (mkBody n m (Some s))
  | _, _, _ => None
  end.

(** [!x] on a string. *)
Definition falsy (x : string) : bool := String.eqb x "".

(** [subUrls = {}] in the destructuring pattern. *)
Definition subUrls_or_default (x : option SubUrls) : SubUrls := default ∅ x.

(** An object sent as [data].  A row read from the table carries all eight
    properties; the object literals [newUrl] and [updatedUrl] of the drizzle
    servers carry only some of them.  [item_deletedAt = Some None] is the
    property present with value [null]. *)
Record UrlItem : Type := mkUrlItem {
  item_id : string;
  item_name : string;
  item_mainUrl : string;
  item_subUrls : SubUrls;
  item_isDeleted : option bool;
  item_deletedAt : option (option Timestamp);
  item_createdAt : option Timestamp;
  item_updatedAt : option Timestamp
}.

(** A row as the driver hands it to the handler. *)
Definition item_of_row (r : UrlRow) : UrlItem :=
  mkUrlItem (id r) (name r) (mainUrl r) (subUrls r) (Some (isDeleted r))
    (Some (deletedAt r)) (Some (createdAt r)) (Some (updatedAt r)).

(** The response envelope [{ success, data?, error?, message? }]. *)
Record Envelope (T : Type) : Type := mkEnvelope {
  success : bool;
  data : option T;
  error : option string;
  message : option string
}.
Arguments mkEnvelope {T}.
Arguments success {T}.
Arguments data {T}.
Arguments error {T}.
Arguments message {T}.

(** [{ success: true, data }]; [data] is dropped by JSON when [undefined]. *)
Definition ok_data {T} (d : option T) : Envelope T := mkEnvelope true d None None.
(** [{ success: true, message }] *)
Definition ok_message {T} (m : string) : Envelope T :=
  mkEnvelope true None None (Some m).
(** [{ success: false, error }] *)
Definition failure {T} (e : string) : Envelope T :=
  mkEnvelope false None (Some e) None.

(** [SELECT 1] *)
Definition select_1 : Query unit := λ db,
  if connected db then (Some (), db) else (None, db).

(** The answer of [/health]: [{ status, timestamp, database?, error?,
    message? }]; [timestamp] is [new Date().toISOString()]. *)
Record Health : Type := mkHealth {
  health_status : string;
  health_timestamp : string;
  health_database : option string;
  health_error : option string;
  health_message : option string
}.

(** [return { status: "ok", timestamp, database: "connected" }] *)
Definition health_ok (iso : string) : Health :=
  mkHealth "ok" iso (Some "connected") None None.

(** [return { status: "error", timestamp, database: "disconnected",
    error: "Database connection failed" }] *)
Definition health_down (iso : string) : Health :=
  mkHealth "error" iso (Some "disconnected")
    (Some "Database connection failed") None.

(** [.onError(({ code, error, set }) => ...)] of the three database-backed
    servers: the status written to [set.status], and the body.  What goes to
    [console.error] is not part of the model. *)
Definition onError (code : string) : nat * Envelope unit :=
  if String.eqb code "NOT_FOUND" then (404, failure "Endpoint not found")
  else (500, failure "Internal server error").

(** What a handler is: the response, and the database afterwards. *)
Definition Handler (T : Type) : Type := Db → Envelope T * Db.

(** ** The raw SQL server ([@vercel/postgres])

    The text of its [INSERT] and of its two [UPDATE] statements has [()NOW]
    where a value is expected; the database refuses such a statement, so the
    three statements are [malformed]. *)
Module VercelSql.

(** A statement the database cannot parse: it throws, and no row is read or
    written. *)
Definition malformed {A} : Query A := λ db, (None, db).

(** [.get("/api/urls", ...)] *)
Definition get_urls : Handler (list UrlItem) :=
  try_catch
    (rows ← orderBy_name <$> select_where (eq_isDeleted false);
     mret (ok_data (Some (map item_of_row rows))))
    (failure "Failed to fetch URLs").

(** [.get("/api/urls/:id", ...)] *)
Definition get_url (x : string) : Handler UrlItem :=
  try_catch
    (rows ← limit 1 <$> select_where (and_ (eq_id x) (eq_isDeleted false));
     if decide (length rows = 0) then mret (failure "URL not found")
     else mret (ok_data (item_of_row <$> head rows)))
    (failure "Failed to fetch URL").

(** [.post("/api/urls", ...)]; [uuid] is what [generateId()] returns. *)
Definition post_url (uuid : string) (now : Timestamp) (body : Body)
    : Handler UrlItem :=
  try_catch
    (if falsy (body_name body) || falsy (body_mainUrl body)
     then mret (failure "Name and mainUrl are required")
     else
       row ← (malformed : Query UrlRow);
       mret (ok_data (Some (item_of_row row))))
    (failure "Failed to create URL").

(** [.put("/api/urls/:id", ...)] *)
Definition put_url (x : string) (now : Timestamp) (body : Body)
    : Handler UrlItem :=
  try_catch
    (if falsy (body_name body) || falsy (body_mainUrl body)
     then mret (failure "Name and mainUrl are required")
     else
       checkResult ← limit 1 <$>
         select_where (and_ (eq_id x) (eq_isDeleted false));
       if decide (length checkResult = 0)
       then mret (failure "URL not found")
       else
         rows ← (malformed : Query (list UrlRow));
         mret (ok_data (item_of_row <$> head rows)))
    (failure "Failed to update URL").

(** [.delete("/api/urls/:id", ...)] *)
Definition delete_url (x : string) (now : Timestamp) : Handler unit :=
  try_catch
    (rows ← (malformed : Query (list UrlRow));
     if decide (length rows = 0) then mret (failure "URL not found")
     else mret (ok_message "URL deleted successfully"))
    (failure "Failed to delete URL").

(** [async function testDatabaseConnection()]: the error is caught and
    logged. *)
Definition testDatabaseConnection : Query unit := λ db,
  match select_1 db with
  | (Some _, db') => (Some (), db')
  | (None, db') => (Some (), db')
  end.

(** [.get("/health", ...)] *)
Definition health (iso : string) : Db → Health * Db :=
  try_catch (_ ← select_1; mret (health_ok iso)) (health_down iso).

End VercelSql.

(** [const newUrl = { id, name, mainUrl, subUrls, isDeleted: false }] *)
Definition newUrl (i n m : string) (s : SubUrls) : UrlItem :=
  mkUrlItem i n m s (Some false) None None None.

(** [const updatedUrl = { id, name, mainUrl, subUrls }] *)
Definition updatedUrl (i n m : string) (s : SubUrls) : UrlItem :=
  mkUrlItem i n m s None None None None.

(** ** The drizzle server over [postgres.js] *)
Module PostgresJs.

Definition get_urls : Handler (list UrlItem) :=
  try_catch
    (urls ← orderBy_name <$> select_where (eq_isDeleted false);
     mret (ok_data (Some (map item_of_row urls))))
    (failure "Failed to fetch URLs").

Definition get_url (x : string) : Handler UrlItem :=
  try_catch
    (urls ← limit 1 <$> select_where (and_ (eq_id x) (eq_isDeleted false));
     if decide (length urls = 0) then mret (failure "URL not found")
     else mret (ok_data (item_of_row <$> head urls)))
    (failure "Failed to fetch URL").

Definition post_url (uuid : string) (now : Timestamp) (body : Body)
    : Handler UrlItem :=
  try_catch
    (if falsy (body_name body) || falsy (body_mainUrl body)
     then mret (failure "Name and mainUrl are required")
     else
       let new := newUrl uuid (body_name body) (body_mainUrl body)
                    (subUrls_or_default (body_subUrls body)) in
       _ ← insert_values (item_id new) (item_name new) (item_mainUrl new)
             (item_subUrls new) false now;
       mret (ok_data (Some new)))
    (failure "Failed to create URL").

Definition put_url (x : string) (now : Timestamp) (body : Body)
    : Handler UrlItem :=
  try_catch
    (if falsy (body_name body) || falsy (body_mainUrl body)
     then mret (failure "Name and mainUrl are required")
     else
       existing ← limit 1 <$>
         select_where (and_ (eq_id x) (eq_isDeleted false));
       if decide (length existing = 0)
       then mret (failure "URL not found")
       else
         let updated := updatedUrl x (body_name body)
                          (body_mainUrl body)
                          (subUrls_or_default (body_subUrls body)) in
         _ ← update_where (eq_id x)
               (set_contents (item_name updated) (item_mainUrl updated)
                  (item_subUrls updated) now);
         mret (ok_data (Some updated)))
    (failure "Failed to update URL").

Definition delete_url (x : string) (now : Timestamp) : Handler unit :=
  try_catch
    (_ ← update_where (eq_id x) (set_deleted now);
     mret (ok_message "URL deleted successfully"))
    (failure "Failed to delete URL").

(** [async function initializeDatabase()]: [SELECT 1]; the error is logged
    and thrown again. *)
Definition initializeDatabase : Query unit := λ db,
  match select_1 db with
  | (Some _, db') => (Some (), db')
  | (None, db') => (None, db')
  end.

(** [.get("/health", ...)]: [db.select().from(urlsTable).limit(1)] *)
Definition health (iso : string) : Db → Health * Db :=
  try_catch (_ ← limit 1 <$> select_all; mret (health_ok iso)) (health_down iso).

End PostgresJs.

(** ** The drizzle server over [@vercel/postgres] *)
Module VercelDrizzle.

(** The process: the module-level [let isInitialized], and the database. *)
Record Process : Type := mkProcess {
  isInitialized : bool;
  db : Db
}.

(** [Omit<UrlItem, "id">] *)
Record SeedItem : Type := mkSeedItem {
  seed_name : string;
  seed_mainUrl : string;
  seed_subUrls : SubUrls
}.

Definition initialData : list SeedItem :=
  [ mkSeedItem "BBC News" "https://www.bbc.com"
      {[ "us" := "https://www.bbc.com/news/world/us_and_canada";
         "uk" := "https://www.bbc.co.uk";
         "in" := "https://www.bbc.com/news/world/asia/india" ]};
    mkSeedItem "Google" "https://www.google.com"
      {[ "in" := "https://www.google.co.in";
         "uk" := "https://www.google.co.uk";
         "jp" := "https://www.google.co.jp" ]} ].

(** [migrate(db, { migrationsFolder: "./drizzle" })]: the folder that
    [drizzle.config.ts] generates from [db/schema.ts].  It needs the
    connection and leaves the rows of an existing table alone. *)
Definition migrate : Query unit := λ db,
  if connected db then (Some (), db) else (None, db).

(** [for (const item of initialData) await db.insert(urlsTable).values({
    id: crypto.randomUUID(), ..., isDeleted: false })]; [uuid k] and [now k]
    are the identifier and the time of the insert number [k]. *)
Fixpoint seed (items : list SeedItem) (uuid : nat → string)
    (now : nat → Timestamp) (k : nat) : Query unit :=
  match items with
  | [] => mret ()
  | item :: rest =>
      _ ← insert_values (uuid k) (seed_name item) (seed_mainUrl item)
            (seed_subUrls item) false (now k);
      seed rest uuid now (S k)
  end.

(** [async function initializeDatabase()]: [None] is the rethrown error. *)
Definition initializeDatabase (uuid : nat → string) (now : nat → Timestamp)
    (p : Process) : option unit * Process :=
  if isInitialized p then (Some (), p)
  else
    match
      (_ ← migrate;
       existingUrls ← limit 1 <$> select_all;
       if decide (length existingUrls = 0)
       then seed initialData uuid now 0
       else mret ()) (db p)
    with
    | (Some _, db') => (Some (), mkProcess true db')
    | (None, db') => (None, mkProcess (isInitialized p) db')
    end.

Definition get_urls : Handler (list UrlItem) :=
  try_catch
    (urls ← orderBy_name <$> select_where (eq_isDeleted false);
     mret (ok_data (Some (map item_of_row urls))))
    (failure "Failed to fetch URLs").

Definition get_url (x : string) : Handler UrlItem :=
  try_catch
    (urls ← limit 1 <$> select_where (and_ (eq_id x) (eq_isDeleted false));
     if decide (length urls = 0) then mret (failure "URL not found")
     else mret (ok_data (item_of_row <$> head urls)))
    (failure "Failed to fetch URL").

Definition post_url (uuid : string) (now : Timestamp) (body : Body)
    : Handler UrlItem :=
  try_catch
    (if falsy (body_name body) || falsy (body_mainUrl body)
     then mret (failure "Name and mainUrl are required")
     else
       let new := newUrl uuid (body_name body) (body_mainUrl body)
                    (subUrls_or_default (body_subUrls body)) in
       _ ← insert_values (item_id new) (item_name new) (item_mainUrl new)
             (item_subUrls new) false now;
       mret (ok_data (Some new)))
    (failure "Failed to create URL").

Definition put_url (x : string) (now : Timestamp) (body : Body)
    : Handler UrlItem :=
  try_catch
    (if falsy (body_name body) || falsy (body_mainUrl body)
     then mret (failure "Name and mainUrl are required")
     else
       existing ← limit 1 <$>
         select_where (and_ (eq_id x) (eq_isDeleted false));
       if decide (length existing = 0)
       then mret (failure "URL not found")
       else
         let updated := updatedUrl x (body_name body)
                          (body_mainUrl body)
                          (subUrls_or_default (body_subUrls body)) in
         _ ← update_where (eq_id x)
               (set_contents (item_name updated) (item_mainUrl updated)
                  (item_subUrls updated) now);
         mret (ok_data (Some updated)))
    (failure "Failed to update URL").

Definition delete_url (x : string) (now : Timestamp) : Handler unit :=
  try_catch
    (_ ← update_where (eq_id x) (set_deleted now);
     mret (ok_message "URL deleted successfully"))
    (failure "Failed to delete URL").

(** [.get("/health", ...)]: [db.execute(`SELECT 1`)] *)
Definition health (iso : string) : Db → Health * Db :=
  try_catch (_ ← select_1; mret (health_ok iso)) (health_down iso).

End VercelDrizzle.

(** ** [server.ts]: the minimal server, without a database *)
Module Minimal.

(** [.get("/api/urls", () => ({ success: true, data: [], message: ... }))] *)
Definition get_urls : Envelope (list UrlItem) :=
  mkEnvelope true (Some []) None
    (Some "API endpoint working - no database yet").

(** [.get("/health", ...)] *)
Definition health (iso : string) : Health :=
  mkHealth "ok" iso None None (Some "Basic server is working").

(** [.get("/test", ...)] *)
Definition test : string := "Hello from Elysia on Vercel!".

(** [.onError(({ error }) => ({ success: false, error: error.message }))];
    [message] is [error.message], absent when the error has none. *)
Definition onError (message : option string) : Envelope unit :=
  mkEnvelope false None message None.

End Minimal.

(** ** The schema: [db/schema.ts] and the migration *)

Inductive ColumnType : Type := text | jsonb | boolean | timestamp.

Inductive ColumnDefault : Type :=
  | NoDefault
  | DefaultEmptyObject   (* [.default({})], [DEFAULT '{}'::jsonb] *)
  | DefaultFalse         (* [.default(false)] *)
  | DefaultNow.          (* [.defaultNow()], [DEFAULT now()] *)

Record Column : Type := mkColumn {
  col_name : string;
  col_type : ColumnType;
  col_primaryKey : bool;
  col_notNull : bool;
  col_default : ColumnDefault
}.

Record Table : Type := mkTable {
  table_name : string;
  table_columns : list Column
}.

(** [export const urlsTable = pgTable("urls", { ... })] *)
Definition urlsTable : Table :=
  mkTable "urls"
    [ mkColumn "id" text true true NoDefault;
      mkColumn "name" text false true NoDefault;
      mkColumn "main_url" text false true NoDefault;
      mkColumn "sub_urls" jsonb false true DefaultEmptyObject;
      mkColumn "is_deleted" boolean false true DefaultFalse;
      mkColumn "deleted_at" timestamp false false NoDefault;
      mkColumn "created_at" timestamp false true DefaultNow;
      mkColumn "updated_at" timestamp false true DefaultNow ].

(** [db/migrations/0000_flawless_gideon.sql]:
    [CREATE TABLE IF NOT EXISTS "urls" ( ... )] *)
Definition migration_0000 : Table :=
  mkTable "urls"
    [ mkColumn "id" text true true NoDefault;
      mkColumn "name" text false true NoDefault;
      mkColumn "main_url" text false true NoDefault;
      mkColumn "sub_urls" jsonb false true DefaultEmptyObject;
      mkColumn "created_at" timestamp false true DefaultNow;
      mkColumn "updated_at" timestamp false true DefaultNow ].

(** The tables of a database on which the migrations [ms] have run, in
    order; [CREATE TABLE IF NOT EXISTS] keeps a table that is already there. *)
Fixpoint run_migrations (ms : list Table) (tables : list Table) : list Table :=
  match ms with
  | [] => tables
  | m :: rest =>
      run_migrations rest
        (if existsb (λ t, String.eqb (table_name t) (table_name m)) tables
         then tables else tables ++ [m])
  end.

(** The name, type and nullability of the columns of a table. *)
Definition column_signature (t : Table) : list (string * ColumnType * bool) :=
  map (λ c, (col_name c, col_type c, negb (col_notNull c))) (table_columns t).

(** ** The three database-backed servers side by side *)

Inductive Server : Type := vercel_sql | vercel_drizzle | postgres_js.

Definition get_urls (sv : Server) : Handler (list UrlItem) :=
  match sv with
  | vercel_sql => VercelSql.get_urls
  | vercel_drizzle => VercelDrizzle.get_urls
  | postgres_js => PostgresJs.get_urls
  end.

Definition get_url (sv : Server) : string → Handler UrlItem :=
  match sv with
  | vercel_sql => VercelSql.get_url
  | vercel_drizzle => VercelDrizzle.get_url
  | postgres_js => PostgresJs.get_url
  end.

Definition post_url (sv : Server) : string → Timestamp → Body → Handler UrlItem :=
  match sv with
  | vercel_sql => VercelSql.post_url
  | vercel_drizzle => VercelDrizzle.post_url
  | postgres_js => PostgresJs.post_url
  end.

Definition put_url (sv : Server) : string → Timestamp → Body → Handler UrlItem :=
  match sv with
  | vercel_sql => VercelSql.put_url
  | vercel_drizzle => VercelDrizzle.put_url
  | postgres_js => PostgresJs.put_url
  end.

Definition delete_url (sv : Server) : string → Timestamp → Handler unit :=
  match sv with
  | vercel_sql => VercelSql.delete_url
  | vercel_drizzle => VercelDrizzle.delete_url
  | postgres_js => PostgresJs.delete_url
  end.

(** The servers that reach the table through drizzle; their statements are
    built by the library. *)
Definition drizzle (sv : Server) : bool :=
  match sv with
  | vercel_sql => false
  | vercel_drizzle | postgres_js => true
  end.

(** What a POST or PUT route answers: the envelope of its handler, or the
    framework's validation error when the body schema refuses the body; the
    handler does not run then. *)
Inductive Answer (T : Type) : Type :=
  | handled (e : Envelope T)
  | validation_error.
Arguments handled {T}.
Arguments validation_error {T}.

(** A route with a body schema in front of its handler. *)
Definition with_body {T} (handler : Body → Handler T) (raw : RawBody) (db : Db)
    : Answer T * Db :=
  match t_Object raw with
  | Some body => (handled (handler body db).1, (handler body db).2)
  | None => (validation_error, db)
  end.

(** [.post("/api/urls", handler, { body: t.Object(...) })] *)
Definition post_route (sv : Server) (uuid : string) (now : Timestamp)
    : RawBody → Db → Answer UrlItem * Db :=
  with_body (post_url sv uuid now).

(** [.put("/api/urls/:id", handler, { body: t.Object(...) })] *)
Definition put_route (sv : Server) (x : string) (now : Timestamp)
    : RawBody → Db → Answer UrlItem * Db :=
  with_body (put_url sv x now).

Definition health (sv : Server) : string → Db → Health * Db :=
  match sv with
  | vercel_sql => VercelSql.health
  | vercel_drizzle => VercelDrizzle.health
  | postgres_js => PostgresJs.health
  end.

(** The number of rows [UPDATE urls ... WHERE id = x] writes. *)
Definition affected (x : string) (db : Db) : nat :=
  length (List.filter (eq_id x) (urls db)).

(** The rows of [urls] after [UPDATE urls SET ... WHERE id = x]. *)
Definition rows_updated (x : string) (set : UrlRow → UrlRow) (db : Db)
    : list UrlRow :=
  map (λ r, if eq_id x r then set r else r) (urls db).

(** The row [SELECT ... WHERE id = x AND is_deleted = false LIMIT 1] finds. *)
Definition live_row (x : string) (db : Db) : option UrlRow :=
  head (List.filter (and_ (eq_id x) (eq_isDeleted false)) (urls db)).

(** A body that passes [if (!name || !mainUrl)]. *)
Definition valid_body (body : Body) : bool :=
  negb (falsy (body_name body) || falsy (body_mainUrl body)).

(** The row [post_url] inserts. *)
Definition created_row (uuid : string) (now : Timestamp) (body : Body) : UrlRow :=
  mkUrlRow uuid (body_name body) (body_mainUrl body)
    (subUrls_or_default (body_subUrls body)) false None now now.

(** The [SET] clause of [put_url]. *)
Definition put_set (now : Timestamp) (body : Body) : UrlRow → UrlRow :=
  set_contents (body_name body) (body_mainUrl body)
    (subUrls_or_default (body_subUrls body)) now.

(** ** Histories of a database *)

Inductive Request : Type :=
  | GetUrls
  | GetUrl (x : string)
  | PostUrl (uuid : string) (now : Timestamp) (body : Body)
  | PutUrl (x : string) (now : Timestamp) (body : Body)
  | DeleteUrl (x : string) (now : Timestamp).

(** The database after a request. *)
Definition handle (sv : Server) (rq : Request) (db : Db) : Db :=
  match rq with
  | GetUrls => (get_urls sv db).2
  | GetUrl x => (get_url sv x db).2
  | PostUrl uuid now body => (post_url sv uuid now body db).2
  | PutUrl x now body => (put_url sv x now body db).2
  | DeleteUrl x now => (delete_url sv x now db).2
  end.

(** What happens to a database: a request to one of the servers, a start of
    the [VercelDrizzle] process, the connection coming or going. *)
Inductive Event : Type :=
  | request (sv : Server) (rq : Request)
  | startup (uuid : nat → string) (now : nat → Timestamp)
  | connection (up : bool).

Definition step (db : Db) (e : Event) : Db :=
  match e with
  | request sv rq => handle sv rq db
  | startup uuid now =>
      VercelDrizzle.db
        (VercelDrizzle.initializeDatabase uuid now
           (VercelDrizzle.mkProcess false db)).2
  | connection up => mkDb up (urls db)
  end.

Definition run (events : list Event) (db : Db) : Db := foldl step db events.

Definition empty_db : Db := mkDb true [].

(** [deletedAt] is non-null exactly when [isDeleted] is true. *)
Definition deleted_consistent (r : UrlRow) : Prop :=
  is_Some (deletedAt r) ↔ isDeleted r = true.

(** ** The seed rows of [initializeDatabase] *)

(** The rows the seed writes: [uuid k] and [now k] belong to insert [k]. *)
Definition bbc_row (uuid : nat → string) (now : nat → Timestamp) : UrlRow :=
  mkUrlRow (uuid 0) "BBC News" "https://www.bbc.com"
    {[ "us" := "https://www.bbc.com/news/world/us_and_canada";
       "uk" := "https://www.bbc.co.uk";
       "in" := "https://www.bbc.com/news/world/asia/india" ]}
    false None (now 0) (now 0).

Definition google_row (uuid : nat → string) (now : nat → Timestamp) : UrlRow :=
  mkUrlRow (uuid 1) "Google" "https://www.google.com"
    {[ "in" := "https://www.google.co.in";
       "uk" := "https://www.google.co.uk";
       "jp" := "https://www.google.co.jp" ]}
    false None (now 1) (now 1).

(** ** Concrete tables and bodies *)

(** A table with a live row ["u1"] and a soft-deleted row ["u2"]. *)
Definition example_db : Db :=
  mkDb true
    [ mkUrlRow "u1" "Zeta" "https://zeta.example" ∅ false None 10 10;
      mkUrlRow "u2" "Alpha" "https://alpha.example"
        {[ "a" := "http://x"; "b" := "http://y" ]} true (Some 15%Z) 11 11 ].

Definition example_body : Body :=
  mkBody "Example" "https://example.com"
    (Some {[ "a" := "http://x"; "b" := "http://y" ]}).

(** A table with the single live row ["u1"], and a body without [subUrls]. *)
Definition put_example_db : Db :=
  mkDb true [ mkUrlRow "u1" "Old" "https://old.example" ∅ false None 10 10 ].
Definition put_example_body : Body :=
  mkBody "New" "https://new.example" None.

(** Two distinct identifiers and increasing times for the seed. *)
Definition example_uuid (k : nat) : string :=
  match k with 0 => "seed-0" | _ => "seed-1" end.
Definition example_now (k : nat) : Timestamp := 100 + Z.of_nat k.

(** A request body without [name], and one whose [name] is empty. *)
Definition raw_without_name : RawBody :=
  mkRawBody None (Some "https://example.com") None.
Definition raw_empty_name : RawBody :=
  mkRawBody (Some "") (Some "https://example.com") None.

(** [example_db] behind a connection that does not answer. *)
Definition example_db_down : Db := mkDb false (urls example_db).

(** A table whose only row is soft-deleted. *)
Definition deleted_only_db : Db :=
  mkDb true
    [ mkUrlRow "u2" "Alpha" "https://alpha.example" ∅ true (Some 15%Z) 11 11 ].

(** [example_db] in another storage order. *)
Definition example_db_swapped : Db :=
  mkDb true
    [ mkUrlRow "u2" "Alpha" "https://alpha.example"
        {[ "a" := "http://x"; "b" := "http://y" ]} true (Some 15%Z) 11 11;
      mkUrlRow "u1" "Zeta" "https://zeta.example" ∅ false None 10 10 ].

(** A row keeps its non-empty [name] and [mainUrl]. *)
Definition named (r : UrlRow) : Prop := name r ≠ "" ∧ mainUrl r ≠ "".

(** [createdAt] is not after [updatedAt]. *)
Definition timestamps_ordered (r : UrlRow) : Prop :=
  (createdAt r ≤ updatedAt r)%Z.

(** [r'] is a later state of the row [r]: the same [id] and [createdAt], and
    still soft-deleted if [r] was. *)
Definition later_row (r r' : UrlRow) : Prop :=
  id r' = id r ∧ createdAt r' = createdAt r ∧
  (isDeleted r = true → isDeleted r' = true).

(** [r'] is [r] up to [deletedAt]. *)
Definition same_contents (r r' : UrlRow) : Prop :=
  id r' = id r ∧ name r' = name r ∧ mainUrl r' = mainUrl r ∧
  subUrls r' = subUrls r ∧ isDeleted r' = isDeleted r ∧
  createdAt r' = createdAt r ∧ updatedAt r' = updatedAt r.

(** * Evaluation of the handlers *)

Ltac run_handler :=
  unfold try_catch, mbind, mret, fmap, Query_bind, Query_ret, Query_fmap,
    select_all, select_where, update_where, insert_values; simpl.

Lemma delete_url_eval sv x now db :
  delete_url sv x now db =
    if drizzle sv && connected db then
      (ok_message "URL deleted successfully",
       mkDb (connected db) (rows_updated x (set_deleted now) db))
    else (failure "Failed to delete URL", db).
Proof.
  unfold rows_updated.
  destruct sv; simpl;
    unfold VercelSql.delete_url, VercelDrizzle.delete_url, PostgresJs.delete_url,
      VercelSql.malformed;
    run_handler; by destruct (connected db).
Qed.

Lemma affected_0_iff x db : affected x db = 0 ↔ ∀ r, r ∈ urls db → id r ≠ x.
Proof.
  unfold affected. rewrite length_zero_iff_nil. split.
  - intros Hnil r Hr Heq.
    assert (In r (List.filter (eq_id x) (urls db))) as Hin.
    { apply filter_In. split; [by apply list_elem_of_In|].
      unfold eq_id. by apply String.eqb_eq. }
    rewrite Hnil in Hin. inversion Hin.
  - intros Hall. destruct (List.filter (eq_id x) (urls db)) as [|r l] eqn:Hf; [done|].
    assert (In r (List.filter (eq_id x) (urls db))) as Hin by (rewrite Hf; by left).
    apply filter_In in Hin as [Hin Heq]. exfalso.
    apply (Hall r); [by apply list_elem_of_In|]. by apply String.eqb_eq.
Qed.

Lemma get_urls_eval sv db :
  get_urls sv db =
    if connected db then
      (ok_data (Some (map item_of_row
         (orderBy_name (List.filter (eq_isDeleted false) (urls db))))), db)
    else (failure "Failed to fetch URLs", db).
Proof.
  destruct sv; simpl;
    unfold VercelSql.get_urls, VercelDrizzle.get_urls, PostgresJs.get_urls;
    run_handler; by destruct (connected db).
Qed.

Lemma get_url_eval sv x db :
  get_url sv x db =
    if connected db then
      (match live_row x db with
       | None => failure "URL not found"
       | Some r => ok_data (Some (item_of_row r))
       end, db)
    else (failure "Failed to fetch URL", db).
Proof.
  unfold live_row.
  destruct sv; simpl;
    unfold VercelSql.get_url, VercelDrizzle.get_url, PostgresJs.get_url;
    run_handler; destruct (connected db); simpl; try done;
    destruct (List.filter _ (urls db)); simpl; done.
Qed.

Lemma post_url_eval sv uuid now body db :
  post_url sv uuid now body db =
    if valid_body body then
      if drizzle sv && connected db then
        if existsb (eq_id uuid) (urls db)
        then (failure "Failed to create URL", db)
        else
          (ok_data (Some (newUrl uuid (body_name body) (body_mainUrl body)
                            (subUrls_or_default (body_subUrls body)))),
           mkDb (connected db) (urls db ++ [created_row uuid now body]))
      else (failure "Failed to create URL", db)
    else (failure "Name and mainUrl are required", db).
Proof.
  unfold valid_body, created_row.
  destruct sv; simpl;
    unfold VercelSql.post_url, VercelDrizzle.post_url, PostgresJs.post_url,
      VercelSql.malformed;
    run_handler;
    destruct (falsy (body_name body) || falsy (body_mainUrl body)); simpl;
    try done; destruct (connected db); simpl; try done;
    destruct (existsb _ _); done.
Qed.

Lemma put_url_eval sv x now body db :
  put_url sv x now body db =
    if valid_body body then
      if connected db then
        match live_row x db with
        | None => (failure "URL not found", db)
        | Some _ =>
            if drizzle sv then
              (ok_data (Some (updatedUrl x (body_name body) (body_mainUrl body)
                                (subUrls_or_default (body_subUrls body)))),
               mkDb (connected db) (rows_updated x (put_set now body) db))
            else (failure "Failed to update URL", db)
        end
      else (failure "Failed to update URL", db)
    else (failure "Name and mainUrl are required", db).
Proof.
  unfold valid_body, live_row, rows_updated, put_set.
  destruct sv; simpl;
    unfold VercelSql.put_url, VercelDrizzle.put_url, PostgresJs.put_url,
      VercelSql.malformed;
    run_handler;
    destruct (falsy (body_name body) || falsy (body_mainUrl body)); simpl;
    try done; destruct (connected db) eqn:Hc; simpl; try done;
    destruct (List.filter (and_ _ _) (urls db)); simpl; try done;
    rewrite ?Hc; done.
Qed.

Lemma initializeDatabase_eval uuid now p :
  VercelDrizzle.initializeDatabase uuid now p =
    if VercelDrizzle.isInitialized p then (Some (), p)
    else if connected (VercelDrizzle.db p) then
      match urls (VercelDrizzle.db p) with
      | [] =>
          match VercelDrizzle.seed VercelDrizzle.initialData uuid now 0
                  (VercelDrizzle.db p) with
          | (Some _, db') => (Some (), VercelDrizzle.mkProcess true db')
          | (None, db') => (None, VercelDrizzle.mkProcess false db')
          end
      | _ :: _ => (Some (), VercelDrizzle.mkProcess true (VercelDrizzle.db p))
      end
    else (None, VercelDrizzle.mkProcess false (VercelDrizzle.db p)).
Proof.
  unfold VercelDrizzle.initializeDatabase, VercelDrizzle.migrate.
  destruct (VercelDrizzle.isInitialized p); [done|].
  unfold mbind, mret, fmap, Query_bind, Query_ret, Query_fmap, select_all,
    select_where.
  destruct (connected (VercelDrizzle.db p)) eqn:Hc; [|done]. rewrite Hc.
  destruct (urls (VercelDrizzle.db p)) as [|r rows] eqn:Hu;
    cbn -[VercelDrizzle.seed VercelDrizzle.initialData]; [|done].
  rewrite decide_True by done.
  by destruct (VercelDrizzle.seed _ _ _ _ _) as [[u|] db'].
Qed.

(** * The handlers on concrete requests *)

(** [POST {name:"Example", mainUrl:"https://example.com"}] on a drizzle
    server, then [DELETE] and [GET] of the new id: [data] of the create is
    [newUrl], and a delete of an id that no row has still answers with
    success. *)
Example post_delete_get_postgres_js :
  let body := mkBody "Example" "https://example.com" None in
  let created := post_url postgres_js "u9" 20 body empty_db in
  let deleted := delete_url postgres_js "u9" 30 created.2 in
  created.1 =
    ok_data (Some (mkUrlItem "u9" "Example" "https://example.com" ∅
                     (Some false) None None None)) ∧
  deleted.1 = ok_message "URL deleted successfully" ∧
  urls deleted.2 =
    [ mkUrlRow "u9" "Example" "https://example.com" ∅ true (Some 30%Z) 20 20 ] ∧
  (get_url postgres_js "u9" deleted.2).1 = failure "URL not found" ∧
  (delete_url postgres_js "u8" 40 deleted.2).1 =
    ok_message "URL deleted successfully".
Proof. vm_compute. repeat split. Qed.

(** The same requests on the raw SQL server: the statements that write are
    refused, each handler answers with its failure text, and the reads see
    the table as it was. *)
Example post_put_delete_vercel_sql :
  post_url vercel_sql "u9" 20 example_body example_db =
    (failure "Failed to create URL", example_db) ∧
  put_url vercel_sql "u1" 20 example_body example_db =
    (failure "Failed to update URL", example_db) ∧
  put_url vercel_sql "u3" 20 example_body example_db =
    (failure "URL not found", example_db) ∧
  delete_url vercel_sql "u1" 20 example_db =
    (failure "Failed to delete URL", example_db) ∧
  (get_url vercel_sql "u1" example_db).1 =
    ok_data (Some (mkUrlItem "u1" "Zeta" "https://zeta.example" ∅
                     (Some false) (Some None) (Some 10%Z) (Some 10%Z))).
Proof. vm_compute. repeat split. Qed.

(** The list is in the order of the names, not of storage. *)
Example get_urls_sorted :
  let db := mkDb true
    [ mkUrlRow "u1" "Zeta" "https://zeta.example" ∅ false None 10 10;
      mkUrlRow "u2" "Alpha" "https://alpha.example" ∅ true (Some 15%Z) 11 11;
      mkUrlRow "u3" "Beta" "https://beta.example" ∅ false None 12 12 ] in
  item_name <$> default [] (data (get_urls vercel_drizzle db).1) = ["Beta"; "Zeta"].
Proof. reflexivity. Qed.

(** A second create with an identifier that is taken is refused by the
    primary key and reported as a store failure. *)
Example post_url_taken_id :
  post_url postgres_js "u1" 20 example_body example_db =
    (failure "Failed to create URL", example_db).
Proof. reflexivity. Qed.

(** * The primary key and the row behind an id *)

Lemma eq_id_true x r : eq_id x r = true ↔ id r = x.
Proof. unfold eq_id. apply String.eqb_eq. Qed.

Lemma eq_isDeleted_true b r : eq_isDeleted b r = true ↔ isDeleted r = b.
Proof. unfold eq_isDeleted. apply Bool.eqb_true_iff. Qed.

Lemma existsb_eq_id_false x rows :
  existsb (eq_id x) rows = false ↔ x ∉ map id rows.
Proof.
  induction rows as [|r rows IH]; simpl.
  - split; [intros _ H; inversion H | done].
  - rewrite orb_false_iff, IH, not_elem_of_cons. split.
    + intros [Hr Hrest]. split; [|done]. intros ->.
      by rewrite (proj2 (eq_id_true (id r) r)) in Hr.
    + intros [Hne Hrest]. split; [|done].
      destruct (eq_id x r) eqn:E; [|done]. apply eq_id_true in E. congruence.
Qed.

Lemma pk_unique rows r1 r2 :
  pk_ok rows → r1 ∈ rows → r2 ∈ rows → id r1 = id r2 → r1 = r2.
Proof.
  unfold pk_ok. induction rows as [|r rows IH]; simpl; intros Hnd H1 H2 Hid.
  - inversion H1.
  - apply NoDup_cons in Hnd as [Hnotin Hnd].
    apply elem_of_cons in H1 as [->|H1]; apply elem_of_cons in H2 as [->|H2];
      try done.
    + exfalso. apply Hnotin. rewrite Hid. by apply list_elem_of_fmap_2.
    + exfalso. apply Hnotin. rewrite <- Hid. by apply list_elem_of_fmap_2.
    + by apply IH.
Qed.

Lemma live_row_Some_inv x db r :
  live_row x db = Some r → r ∈ urls db ∧ id r = x ∧ isDeleted r = false.
Proof.
  unfold live_row. intros Hh.
  assert (In r (List.filter (and_ (eq_id x) (eq_isDeleted false)) (urls db))) as Hin.
  { destruct (List.filter _ _); simplify_eq/=. by left. }
  apply filter_In in Hin as [Hin Hp]. unfold and_ in Hp.
  apply andb_true_iff in Hp as [Hi Hd].
  split; [by apply list_elem_of_In|]. split; [by apply eq_id_true|].
  by apply eq_isDeleted_true.
Qed.

Lemma live_row_Some x db r :
  pk_ok (urls db) → r ∈ urls db → id r = x → isDeleted r = false →
  live_row x db = Some r.
Proof.
  intros Hpk Hr Hid Hdel.
  destruct (live_row x db) as [r'|] eqn:Hl.
  - apply live_row_Some_inv in Hl as (Hr' & Hid' & _).
    f_equal. apply (pk_unique (urls db)); try done. congruence.
  - exfalso. unfold live_row in Hl.
    assert (In r (List.filter (and_ (eq_id x) (eq_isDeleted false)) (urls db))) as Hin.
    { apply filter_In. split; [by apply list_elem_of_In|]. unfold and_.
      apply andb_true_iff. split; [by apply eq_id_true | by apply eq_isDeleted_true]. }
    destruct (List.filter _ _); [inversion Hin | done].
Qed.

Lemma live_row_None x db :
  (∀ r, r ∈ urls db → id r = x → isDeleted r = true) → live_row x db = None.
Proof.
  intros Hall. destruct (live_row x db) as [r|] eqn:Hl; [|done].
  apply live_row_Some_inv in Hl as (Hr & Hid & Hdel).
  specialize (Hall r Hr Hid). congruence.
Qed.

Lemma absent_no_row x db r : x ∉ map id (urls db) → r ∈ urls db → id r ≠ x.
Proof. intros Hx Hr <-. apply Hx. by apply list_elem_of_fmap_2. Qed.

Lemma rows_updated_elem x set db r' :
  r' ∈ rows_updated x set db →
  ∃ r, r ∈ urls db ∧ r' = if eq_id x r then set r else r.
Proof.
  unfold rows_updated. intros Hin.
  apply list_elem_of_fmap in Hin as (r & -> & Hr). by exists r.
Qed.

Lemma rows_updated_lookup x set db i :
  rows_updated x set db !! i =
    (λ r, if eq_id x r then set r else r) <$> urls db !! i.
Proof. unfold rows_updated. apply list_lookup_fmap. Qed.

Lemma rows_updated_ids x set db :
  (∀ r, id (set r) = id r) →
  map id (rows_updated x set db) = map id (urls db).
Proof.
  intros Hset. unfold rows_updated.
  induction (urls db) as [|r rows IH]; simpl; [done|].
  rewrite IH. f_equal. destruct (eq_id x r); [apply Hset | done].
Qed.

Global Instance name_le_trans : Transitive name_le.
Proof. intros r1 r2 r3. unfold name_le. apply transitivity. Qed.

Global Instance name_le_total : Total name_le.
Proof. intros r1 r2. unfold name_le. apply total, _. Qed.

Lemma orderBy_name_sorted rows : StronglySorted name_le (orderBy_name rows).
Proof. apply StronglySorted_merge_sort; apply _. Qed.

Lemma orderBy_name_perm rows : orderBy_name rows ≡ₚ rows.
Proof. apply merge_sort_Permutation. Qed.

(** * Delete *)

(** C1: the delete of the raw SQL server answers neither "URL not found" nor
    "URL deleted successfully".  Its [UPDATE] has [()NOW] where the value of
    ["deletedAt"] is expected, so the statement is refused for every id: the
    answer is
    [{success:false, error:"Failed to delete URL"}] whether or not a row has
    the id, and no row is written. *)
Theorem raw_sql_delete_url_always_fails
    (x : string) (now : Timestamp) (db : Db) :
  delete_url vercel_sql x now db = (failure "Failed to delete URL", db).
Proof. by rewrite delete_url_eval. Qed.

(** * List *)

(** C4: on each of the three servers, list answers with exactly the rows
    whose [isDeleted] is false, in ascending order of [name], whenever the
    store answers; it fails only when the store does not answer, and then
    with [{success:false, error:"Failed to fetch URLs"}].  The minimal server
    has no store and answers with the empty list, the list of the empty
    table. *)
Theorem get_urls_lists_live_rows_by_name (sv : Server) (db : Db) :
  (connected db = true →
     ∃ rows,
       get_urls sv db = (ok_data (Some (map item_of_row rows)), db) ∧
       rows ≡ₚ List.filter (λ r, negb (isDeleted r)) (urls db) ∧
       (∀ r, r ∈ rows ↔ r ∈ urls db ∧ isDeleted r = false) ∧
       StronglySorted name_le rows) ∧
  (connected db = false →
     get_urls sv db = (failure "Failed to fetch URLs", db)) ∧
  (success (get_urls sv db).1 = false → connected db = false) ∧
  Minimal.get_urls =
    mkEnvelope true (Some []) None (Some "API endpoint working - no database yet") ∧
  data Minimal.get_urls = data (get_urls sv (mkDb true [])).1.
Proof.
  rewrite get_urls_eval. repeat split.
  - intros ->. exists (orderBy_name (List.filter (eq_isDeleted false) (urls db))).
    assert (List.filter (eq_isDeleted false) (urls db) =
            List.filter (λ r, negb (isDeleted r)) (urls db)) as Hf.
    { apply filter_ext. intros r. unfold eq_isDeleted. by destruct (isDeleted r). }
    split; [done|]. split; [|split].
    + rewrite <- Hf. apply orderBy_name_perm.
    + intros r. rewrite orderBy_name_perm, list_elem_of_In, filter_In.
      rewrite <- list_elem_of_In, eq_isDeleted_true. done.
    + apply orderBy_name_sorted.
  - by intros ->.
  - by destruct (connected db).
  - by destruct sv.
Qed.

(** * Get by id *)

(** C7: with the store answering and [id] the primary key, get-by-id answers
    [{success:true, data: r}] for the row [r] with that id when [r] is not
    soft-deleted, and [{success:false, error:"URL not found"}] when no row
    has the id or the row with the id is soft-deleted. *)
Theorem get_url_finds_the_live_row (sv : Server) (x : string) (db : Db) :
  connected db = true → pk_ok (urls db) →
  (∀ r, r ∈ urls db → id r = x → isDeleted r = false →
     get_url sv x db = (ok_data (Some (item_of_row r)), db) ∧
     ∀ r', r' ∈ urls db → id r' = x → r' = r) ∧
  (x ∉ map id (urls db) → get_url sv x db = (failure "URL not found", db)) ∧
  (∀ r, r ∈ urls db → id r = x → isDeleted r = true →
     get_url sv x db = (failure "URL not found", db)).
Proof.
  intros Hc Hpk. rewrite get_url_eval, Hc. split; [|split].
  - intros r Hr Hid Hdel. rewrite (live_row_Some x db r) by done.
    split; [done|]. intros r' Hr' Hid'.
    apply (pk_unique (urls db)); try done. congruence.
  - intros Hx. rewrite live_row_None; [done|].
    intros r Hr Hid. exfalso. by apply (absent_no_row x db r).
  - intros r Hr Hid Hdel. rewrite live_row_None; [done|].
    intros r' Hr' Hid'.
    assert (r' = r) as -> by (apply (pk_unique (urls db)); try done; congruence).
    done.
Qed.

(** * Validation *)

Lemma falsy_iff (v : string) : falsy v = true ↔ v = "".
Proof. unfold falsy. apply String.eqb_eq. Qed.

Lemma valid_body_false body :
  valid_body body = false ↔ body_name body = "" ∨ body_mainUrl body = "".
Proof.
  unfold valid_body. rewrite negb_false_iff, orb_true_iff, !falsy_iff. done.
Qed.

(** The handlers themselves: an empty [name] or [mainUrl] is answered before
    any statement. *)
Lemma post_put_reject_empty_body sv uuid x now body db :
  body_name body = "" ∨ body_mainUrl body = "" →
  post_url sv uuid now body db = (failure "Name and mainUrl are required", db) ∧
  put_url sv x now body db = (failure "Name and mainUrl are required", db).
Proof.
  intros H. apply valid_body_false in H.
  by rewrite post_url_eval, put_url_eval, H.
Qed.

(** C5, as stated, fails for a missing property: the body schema of the route
    refuses a body without [name] before the handler runs, so the answer is
    the framework's validation error and not the envelope
    [{success:false, error:"Name and mainUrl are required"}]. *)
Lemma missing_name_is_refused_by_the_schema :
  (post_route postgres_js "u9" 20 raw_without_name example_db).1 = validation_error ∧
  (post_route postgres_js "u9" 20 raw_without_name example_db).1 ≠
    handled (failure "Name and mainUrl are required") ∧
  (put_route postgres_js "u1" 20 raw_without_name example_db).1 = validation_error ∧
  (put_route postgres_js "u1" 20 raw_without_name example_db).1 ≠
    handled (failure "Name and mainUrl are required").
Proof. repeat split; done. Qed.

(** C5, amended: on each of the three servers, a create or an update whose
    body matches the schema of the route and whose [name] or [mainUrl] is the
    empty string is answered with
    [{success:false, error:"Name and mainUrl are required"}], and the database
    is the one before: no statement ran.  A body whose [name] or [mainUrl] is
    missing is refused by the schema of the route before the handler runs, and
    the database is the one before as well. *)
Theorem post_put_reject_empty_or_missing
    (sv : Server) (uuid x : string) (now : Timestamp) (raw : RawBody) (db : Db) :
  (∀ n m, raw_name raw = Some n → raw_mainUrl raw = Some m →
     raw_subUrls raw ≠ Some None → n = "" ∨ m = "" →
     post_route sv uuid now raw db =
       (handled (failure "Name and mainUrl are required"), db) ∧
     put_route sv x now raw db =
       (handled (failure "Name and mainUrl are required"), db)) ∧
  (raw_name raw = None ∨ raw_mainUrl raw = None →
     post_route sv uuid now raw db = (validation_error, db) ∧
     put_route sv x now raw db = (validation_error, db)).
Proof.
  unfold post_route, put_route, with_body, t_Object. split.
  - intros n m -> -> Hsub Hempty.
    destruct (raw_subUrls raw) as [[s|]|]; [|done|];
      match goal with
      | |- context [mkBody n m ?o] =>
          destruct (post_put_reject_empty_body sv uuid x now (mkBody n m o) db
                      Hempty) as [-> ->]
      end; done.
  - intros [-> | Hm]; [done|]. rewrite Hm. by destruct (raw_name raw).
Qed.

(** * Update *)

Lemma valid_body_Some n m osub :
  n ≠ "" → m ≠ "" → valid_body (mkBody n m osub) = true.
Proof.
  intros Hn Hm. unfold valid_body, falsy. simpl.
  apply String.eqb_neq in Hn, Hm. by rewrite Hn, Hm.
Qed.

(** C6: with [id] the primary key, an update of an id that no row has, or
    whose row is soft-deleted, leaves the database as it was, on each of the
    three servers; when the store answers and the body passes validation the
    answer is [{success:false, error:"URL not found"}].  No update, of any
    id, changes a row whose [isDeleted] is true. *)
Theorem put_url_never_touches_absent_or_deleted
    (sv : Server) (x : string) (now : Timestamp) (body : Body) (db : Db) :
  pk_ok (urls db) →
  ((x ∉ map id (urls db) ∨
    ∃ r, r ∈ urls db ∧ id r = x ∧ isDeleted r = true) →
     (put_url sv x now body db).2 = db ∧
     (connected db = true → valid_body body = true →
      (put_url sv x now body db).1 = failure "URL not found")) ∧
  (∀ i r, urls db !! i = Some r → isDeleted r = true →
     urls (put_url sv x now body db).2 !! i = Some r).
Proof.
  intros Hpk. rewrite put_url_eval. split.
  - intros Hx.
    assert (live_row x db = None) as Hl.
    { apply live_row_None. intros r' Hr' Hid'.
      destruct Hx as [Hx | (r & Hr & Hid & Hdel)].
      - exfalso. by apply (absent_no_row x db r').
      - assert (r' = r) as ->
          by (apply (pk_unique (urls db)); try done; congruence).
        done. }
    rewrite Hl. split.
    + by destruct (valid_body body), (connected db).
    + by intros -> ->.
  - intros i r Hi Hdel.
    destruct (valid_body body); [|done].
    destruct (connected db) eqn:Hc; [|done].
    destruct (live_row x db) as [r0|] eqn:Hl; [|done].
    destruct (drizzle sv); [|done]. simpl.
    rewrite rows_updated_lookup, Hi. simpl.
    destruct (eq_id x r) eqn:E; [|done]. exfalso.
    apply eq_id_true in E.
    apply live_row_Some_inv in Hl as (Hr0 & Hid0 & Hdel0).
    assert (r = r0) as ->.
    { apply (pk_unique (urls db)); try done; [|congruence].
      by apply list_elem_of_lookup_2 in Hi. }
    congruence.
Qed.


(** C3, as stated, fails on the drizzle servers: the update succeeds and
    rewrites the row, but [data] is the object [{id, name, mainUrl, subUrls}]
    built from the request; it has no [isDeleted], [deletedAt], [createdAt] or
    [updatedAt], so it is not the row of the table. *)
Lemma put_url_drizzle_data_is_not_the_row :
  let out := put_url postgres_js "u1" 20 put_example_body put_example_db in
  success out.1 = true ∧
  urls out.2 =
    [ mkUrlRow "u1" "New" "https://new.example" ∅ false None 10 20 ] ∧
  data out.1 ≠
    Some (item_of_row (mkUrlRow "u1" "New" "https://new.example" ∅ false None 10 20)) ∧
  ∃ item, data out.1 = Some item ∧
    item_isDeleted item = None ∧ item_deletedAt item = None ∧
    item_createdAt item = None ∧ item_updatedAt item = None.
Proof.
  vm_compute. split; [done|]. split; [done|]. split; [|by eexists].
  intros H. discriminate H.
Qed.

(** C3, amended: on the two drizzle servers, with the store answering and
    [id] the primary key, an update of the id of a row that is not
    soft-deleted, with non-empty [name] and [mainUrl], succeeds; it sets
    [name], [mainUrl], [subUrls] and [updatedAt] of that row, keeps its [id],
    [isDeleted], [deletedAt] and [createdAt], and keeps every other row;
    [data] is [{id, name, mainUrl, subUrls}] as the request gave them, with
    no flags and no timestamps. *)
Theorem put_url_overwrites_and_returns
    (sv : Server) (x n m : string) (osub : option SubUrls) (now : Timestamp)
    (db : Db) (r : UrlRow) :
  drizzle sv = true →
  connected db = true → pk_ok (urls db) →
  r ∈ urls db → id r = x → isDeleted r = false →
  n ≠ "" → m ≠ "" →
  let s := default ∅ osub in
  let r' := mkUrlRow x n m s false (deletedAt r) (createdAt r) now in
  let out := put_url sv x now (mkBody n m osub) db in
  success out.1 = true ∧
  r' ∈ urls out.2 ∧
  (∀ q, q ∈ urls out.2 → id q = x → q = r') ∧
  (∀ q, id q ≠ x → q ∈ urls out.2 ↔ q ∈ urls db) ∧
  length (urls out.2) = length (urls db) ∧
  data out.1 = Some (updatedUrl x n m s).
Proof.
  intros Hsv Hc Hpk Hr Hid Hdel Hn Hm s r' out. subst out.
  rewrite put_url_eval, valid_body_Some, Hc, (live_row_Some x db r), Hsv by done.
  simpl.
  assert (put_set now (mkBody n m osub) r = r') as Hset.
  { unfold put_set, set_contents, r'. simpl. by rewrite Hid, Hdel. }
  assert (∀ q, q ∈ urls db → id q = x → q = r) as Huniq.
  { intros q Hq Hq'. apply (pk_unique (urls db)); try done. congruence. }
  split; [done|]. split; [|split; [|split; [|split; [|done]]]].
  - unfold rows_updated. apply list_elem_of_fmap. exists r. split; [|done].
    by rewrite (proj2 (eq_id_true x r) Hid), Hset.
  - intros q Hq Hqx. apply rows_updated_elem in Hq as (q0 & Hq0 & ->).
    destruct (eq_id x q0) eqn:E.
    + apply eq_id_true in E. by rewrite (Huniq q0 Hq0 E), Hset.
    + apply eq_id_true in Hqx. congruence.
  - intros q Hqx. split.
    + intros Hq. apply rows_updated_elem in Hq as (q0 & Hq0 & ->).
      destruct (eq_id x q0) eqn:E; [|done].
      exfalso. apply Hqx. simpl. by apply eq_id_true.
    + intros Hq. unfold rows_updated. apply list_elem_of_fmap. exists q.
      split; [|done]. destruct (eq_id x q) eqn:E; [|done].
      apply eq_id_true in E. congruence.
  - unfold rows_updated. by rewrite length_map.
Qed.

(** * Create, then get by id *)

(** C8: the create of the raw SQL server never creates a record.  Its
    [INSERT] has [()NOW] where the values of ["createdAt"] and ["updatedAt"]
    are expected, so the statement is refused: for every body that passes
    validation the answer is [{success:false, error:"Failed to create URL"}],
    no row is written and no id is returned to get by. *)
Theorem raw_sql_post_url_always_fails
    (uuid : string) (now : Timestamp) (body : Body) (db : Db) :
  post_url vercel_sql uuid now body db =
    (failure (if valid_body body then "Failed to create URL"
              else "Name and mainUrl are required"), db).
Proof. rewrite post_url_eval. by destruct (valid_body body). Qed.

(** X21: on the two drizzle servers, with the store answering and a fresh
    identifier from [crypto.randomUUID()], a create with non-empty [name] and
    [mainUrl] succeeds and returns that identifier; a get-by-id with it, on
    any server, then returns the created row: the [name] and [mainUrl] of the
    request, [subUrls] exactly the mapping of the request, or [{}] when the
    request has none, not soft-deleted, and [createdAt] equal to
    [updatedAt]. *)
Theorem drizzle_post_url_then_get_url
    (sv sv' : Server) (uuid n m : string) (osub : option SubUrls)
    (now : Timestamp) (db : Db) :
  drizzle sv = true →
  connected db = true → uuid ∉ map id (urls db) →
  n ≠ "" → m ≠ "" →
  let created := post_url sv uuid now (mkBody n m osub) db in
  ∃ item r,
    success created.1 = true ∧ data created.1 = Some item ∧
    item_id item = uuid ∧ item_name item = n ∧ item_mainUrl item = m ∧
    item_subUrls item = subUrls r ∧
    get_url sv' (item_id item) created.2 =
      (ok_data (Some (item_of_row r)), created.2) ∧
    id r = uuid ∧ name r = n ∧ mainUrl r = m ∧
    (osub = None → subUrls r = ∅) ∧
    (∀ s, osub = Some s → subUrls r = s) ∧
    isDeleted r = false ∧ deletedAt r = None ∧
    createdAt r = updatedAt r.
Proof.
  intros Hsv Hc Hfresh Hn Hm created. subst created.
  set (body := mkBody n m osub).
  assert (valid_body body = true) as Hv by (by apply valid_body_Some).
  rewrite post_url_eval, Hv, Hsv, Hc.
  rewrite (proj2 (existsb_eq_id_false uuid (urls db))) by done. simpl.
  exists (newUrl uuid n m (default ∅ osub)), (created_row uuid now body).
  assert (live_row uuid (mkDb true (urls db ++ [created_row uuid now body]))
          = Some (created_row uuid now body)) as Hl.
  { unfold live_row. simpl. rewrite List.filter_app. simpl.
    unfold and_ at 2. rewrite (proj2 (eq_id_true uuid _)) by done. simpl.
    assert (List.filter (and_ (eq_id uuid) (eq_isDeleted false)) (urls db) = []) as ->; [|done].
    destruct (List.filter _ (urls db)) as [|q l] eqn:Hf; [done|].
    assert (In q (List.filter (and_ (eq_id uuid) (eq_isDeleted false)) (urls db))) as Hin
      by (rewrite Hf; by left).
    apply filter_In in Hin as [Hin Hq]. unfold and_ in Hq.
    apply andb_true_iff in Hq as [Hq _]. apply eq_id_true in Hq.
    exfalso. apply Hfresh. rewrite <- Hq.
    apply list_elem_of_fmap_2. by apply list_elem_of_In. }
  simpl. rewrite get_url_eval. simpl. rewrite Hl.
  repeat split; try done.
  - by intros ->.
  - by intros s ->.
Qed.

(** * The primary key in the reachable tables *)

Lemma insert_pk rows r :
  pk_ok rows → existsb (eq_id (id r)) rows = false → pk_ok (rows ++ [r]).
Proof.
  unfold pk_ok. intros Hnd Hex. apply existsb_eq_id_false in Hex.
  rewrite map_app. simpl. apply NoDup_app. split; [done|]. split.
  - intros y Hy Hin. apply list_elem_of_singleton in Hin. by subst.
  - apply NoDup_singleton.
Qed.

Lemma rows_updated_pk x set db :
  (∀ r, id (set r) = id r) → pk_ok (urls db) → pk_ok (rows_updated x set db).
Proof. intros Hset. unfold pk_ok. by rewrite rows_updated_ids. Qed.

Lemma handle_pk sv rq db : pk_ok (urls db) → pk_ok (urls (handle sv rq db)).
Proof.
  intros Hpk. destruct rq as [|x|uuid now body|x now body|x now]; simpl.
  - rewrite get_urls_eval. by destruct (connected db).
  - rewrite get_url_eval. by destruct (connected db).
  - rewrite post_url_eval.
    destruct (valid_body body), (drizzle sv && connected db); simpl; try done.
    destruct (existsb _ _) eqn:Hex; simpl; [done|]. by apply insert_pk.
  - rewrite put_url_eval.
    destruct (valid_body body), (connected db), (live_row x db), (drizzle sv); simpl; try done.
    by apply rows_updated_pk.
  - rewrite delete_url_eval. destruct (drizzle sv && connected db); simpl; [|done].
    by apply rows_updated_pk.
Qed.

Lemma seed_pk items uuid now k db :
  pk_ok (urls db) → pk_ok (urls (VercelDrizzle.seed items uuid now k db).2).
Proof.
  revert k db. induction items as [|item items IH]; intros k db Hpk; simpl.
  - done.
  - run_handler.
    destruct (connected db); simpl; [|done].
    destruct (existsb _ _) eqn:Hex; simpl; [done|].
    apply IH. simpl. by apply insert_pk.
Qed.

Lemma step_pk db e : pk_ok (urls db) → pk_ok (urls (step db e)).
Proof.
  intros Hpk. destruct e as [sv rq|uuid now|up]; [by apply handle_pk| |done].
  unfold step. rewrite initializeDatabase_eval.
  cbn -[VercelDrizzle.seed VercelDrizzle.initialData].
  pose proof (seed_pk VercelDrizzle.initialData uuid now 0 db Hpk) as Hs.
  destruct (connected db); [|done].
  destruct (urls db) as [|r rows] eqn:Hu; [|simpl; by rewrite Hu].
  by destruct (VercelDrizzle.seed _ _ _ _ db) as [[u|] db'].
Qed.

(** [id] stays a key in every table a history produces from the empty one. *)
Lemma run_pk events : pk_ok (urls (run events empty_db)).
Proof.
  assert (∀ db, pk_ok (urls db) → pk_ok (urls (run events db))) as H.
  { induction events as [|e events IH]; intros db Hpk; [done|].
    unfold run. simpl. apply IH. by apply step_pk. }
  apply H. apply NoDup_nil_2.
Qed.

(** * Soft-delete consistency of the reachable tables *)

Lemma rows_updated_Forall (P : UrlRow → Prop) x set db :
  (∀ r, P r → P (set r)) → Forall P (urls db) → Forall P (rows_updated x set db).
Proof.
  intros Hset Hall. unfold rows_updated. apply Forall_fmap.
  eapply Forall_impl; [exact Hall|]. intros r Hr. simpl.
  destruct (eq_id x r); auto.
Qed.

Lemma created_row_consistent uuid now body :
  deleted_consistent (created_row uuid now body).
Proof. split; [by intros [? ?] | done]. Qed.

Lemma put_set_consistent now body r :
  deleted_consistent r → deleted_consistent (put_set now body r).
Proof. done. Qed.

Lemma set_deleted_consistent now r : deleted_consistent (set_deleted now r).
Proof. split; [done | by eexists]. Qed.

Lemma handle_consistent sv rq db :
  Forall deleted_consistent (urls db) →
  Forall deleted_consistent (urls (handle sv rq db)).
Proof.
  intros Hall. destruct rq as [|x|uuid now body|x now body|x now]; simpl.
  - rewrite get_urls_eval. by destruct (connected db).
  - rewrite get_url_eval. by destruct (connected db).
  - rewrite post_url_eval.
    destruct (valid_body body), (drizzle sv && connected db); simpl; try done.
    destruct (existsb _ _); simpl; [done|].
    apply Forall_app. split; [done|].
    apply Forall_singleton, created_row_consistent.
  - rewrite put_url_eval.
    destruct (valid_body body), (connected db), (live_row x db), (drizzle sv); simpl; try done.
    apply rows_updated_Forall; [|done]. apply put_set_consistent.
  - rewrite delete_url_eval. destruct (drizzle sv && connected db); simpl; [|done].
    apply rows_updated_Forall; [|done]. intros r _. apply set_deleted_consistent.
Qed.

Lemma seed_consistent items uuid now k db :
  Forall deleted_consistent (urls db) →
  Forall deleted_consistent
    (urls (VercelDrizzle.seed items uuid now k db).2).
Proof.
  revert k db. induction items as [|item items IH]; intros k db Hall; simpl.
  - done.
  - run_handler.
    destruct (connected db); simpl; [|done].
    destruct (existsb _ _); simpl; [done|].
    apply IH. simpl. apply Forall_app. split; [done|].
    apply Forall_singleton. split; [by intros [? ?] | done].
Qed.

Lemma startup_consistent uuid now db :
  Forall deleted_consistent (urls db) →
  Forall deleted_consistent (urls (step db (startup uuid now))).
Proof.
  intros Hall. unfold step. rewrite initializeDatabase_eval.
  cbn -[VercelDrizzle.seed VercelDrizzle.initialData].
  pose proof (seed_consistent VercelDrizzle.initialData uuid now 0 db Hall) as Hs.
  destruct (connected db); [|done].
  destruct (urls db) as [|r rows] eqn:Hu; [|simpl; by rewrite Hu].
  by destruct (VercelDrizzle.seed _ _ _ _ db) as [[u|] db'].
Qed.

Lemma run_consistent events db :
  Forall deleted_consistent (urls db) →
  Forall deleted_consistent (urls (run events db)).
Proof.
  revert db. induction events as [|e events IH]; intros db Hall; [done|].
  unfold run. simpl. apply IH.
  destruct e as [sv rq|uuid now|up].
  - by apply handle_consistent.
  - by apply startup_consistent.
  - done.
Qed.

(** C9: in every table that requests to the three servers, starts of the
    process and changes of the connection produce from the empty table,
    [deletedAt] is non-null exactly when [isDeleted] is true.  A create adds
    at most one row, with [isDeleted] false and [deletedAt] null, and on the
    drizzle servers it adds that row whenever the store answers, the body
    passes validation and the identifier is fresh.  A delete changes no row
    but those with the id, and what it writes is [isDeleted] true together
    with [deletedAt] the time of the delete; on the drizzle servers, with the
    store answering, it writes both on every row with the id.  An update keeps
    both of every row. *)
Theorem deletedAt_iff_isDeleted :
  (∀ events, Forall deleted_consistent (urls (run events empty_db))) ∧
  (∀ sv uuid now body db,
     urls (post_url sv uuid now body db).2 = urls db ∨
     ∃ r, urls (post_url sv uuid now body db).2 = urls db ++ [r] ∧
          isDeleted r = false ∧ deletedAt r = None) ∧
  (∀ sv uuid now body db,
     drizzle sv = true → connected db = true → valid_body body = true →
     uuid ∉ map id (urls db) →
     ∃ r, urls (post_url sv uuid now body db).2 = urls db ++ [r] ∧
          id r = uuid ∧ isDeleted r = false ∧ deletedAt r = None) ∧
  (∀ sv x now db i r, urls db !! i = Some r →
     ∃ r', urls (delete_url sv x now db).2 !! i = Some r' ∧
       (r' = r ∨
        id r = x ∧ isDeleted r' = true ∧ deletedAt r' = Some now) ∧
       (id r ≠ x → r' = r) ∧
       (drizzle sv = true → connected db = true → id r = x →
        isDeleted r' = true ∧ deletedAt r' = Some now)) ∧
  (∀ sv x now body db i r, urls db !! i = Some r →
     ∃ r', urls (put_url sv x now body db).2 !! i = Some r' ∧
       isDeleted r' = isDeleted r ∧ deletedAt r' = deletedAt r).
Proof.
  split; [|split; [|split; [|split]]].
  - intros events. apply run_consistent. constructor.
  - intros sv uuid now body db. rewrite post_url_eval.
    destruct (valid_body body), (drizzle sv && connected db); simpl;
      try (by left).
    destruct (existsb _ _); simpl; [by left|].
    right. by eexists.
  - intros sv uuid now body db Hsv Hc Hv Hfresh.
    rewrite post_url_eval, Hv, Hsv, Hc.
    rewrite (proj2 (existsb_eq_id_false uuid (urls db))) by done. simpl.
    by eexists.
  - intros sv x now db i r Hi. rewrite delete_url_eval.
    destruct (drizzle sv) eqn:Hsv, (connected db) eqn:Hc; simpl;
      try (exists r; split; [done|]; split; [by left|]; split; [done|];
           intros; done).
    rewrite rows_updated_lookup, Hi. simpl.
    destruct (eq_id x r) eqn:E.
    + apply eq_id_true in E. eexists. split; [done|].
      split; [by right|]. split; [intros Hne; congruence | done].
    + exists r. split; [done|]. split; [by left|]. split; [done|].
      intros _ _ Hid. apply eq_id_true in Hid. congruence.
  - intros sv x now body db i r Hi. rewrite put_url_eval.
    destruct (valid_body body), (connected db), (live_row x db), (drizzle sv);
      simpl; try (by exists r).
    rewrite rows_updated_lookup, Hi. simpl.
    destruct (eq_id x r); by eexists.
Qed.

(** * Startup of the drizzle server over [@vercel/postgres] *)

Lemma seed_initialData_empty uuid now :
  uuid 0 ≠ uuid 1 →
  VercelDrizzle.seed VercelDrizzle.initialData uuid now 0 (mkDb true []) =
    (Some (), mkDb true [bbc_row uuid now; google_row uuid now]).
Proof.
  intros Hne. unfold VercelDrizzle.initialData. simpl. run_handler.
  unfold eq_id. simpl. apply String.eqb_neq in Hne. by rewrite Hne.
Qed.

(** C10: on the drizzle server over [@vercel/postgres], the first
    [initializeDatabase], with the store answering, an empty [urls] table and
    two distinct identifiers from [crypto.randomUUID()], inserts exactly two
    rows, "BBC News" and "Google", each with [isDeleted] false and three
    [subUrls], and sets [isInitialized]; the list that follows returns these
    two rows, "BBC News" first.  Once [isInitialized] is set, a call of
    [initializeDatabase] returns at once and changes nothing. *)
Theorem initializeDatabase_seeds_once
    (uuid : nat → string) (now : nat → Timestamp) (db0 : Db) :
  connected db0 = true → urls db0 = [] → uuid 0 ≠ uuid 1 →
  let started :=
    VercelDrizzle.initializeDatabase uuid now (VercelDrizzle.mkProcess false db0) in
  let p1 := started.2 in
  started.1 = Some () ∧
  VercelDrizzle.isInitialized p1 = true ∧
  urls (VercelDrizzle.db p1) = [bbc_row uuid now; google_row uuid now] ∧
  name (bbc_row uuid now) = "BBC News" ∧ name (google_row uuid now) = "Google" ∧
  isDeleted (bbc_row uuid now) = false ∧ isDeleted (google_row uuid now) = false ∧
  size (subUrls (bbc_row uuid now)) = 3 ∧
  size (subUrls (google_row uuid now)) = 3 ∧
  VercelDrizzle.get_urls (VercelDrizzle.db p1) =
    (ok_data (Some [item_of_row (bbc_row uuid now);
                    item_of_row (google_row uuid now)]),
     VercelDrizzle.db p1) ∧
  (∀ uuid' now', VercelDrizzle.initializeDatabase uuid' now' p1 = (Some (), p1)) ∧
  (∀ uuid' now' p, VercelDrizzle.isInitialized p = true →
     VercelDrizzle.initializeDatabase uuid' now' p = (Some (), p)).
Proof.
  intros Hc Hu Hne started p1. subst p1 started.
  destruct db0 as [c rows]. simpl in Hc, Hu. subst c rows.
  rewrite initializeDatabase_eval.
  cbn -[VercelDrizzle.seed VercelDrizzle.initialData].
  rewrite seed_initialData_empty by done.
  cbn -[bbc_row google_row orderBy_name].
  repeat split; try done.
  intros uuid' now' p Hp. by rewrite initializeDatabase_eval, Hp.
Qed.

(** * The schema *)

(** C2: [urlsTable] of [db/schema.ts] declares the eight columns, but the
    migration creates the table [urls] with six of them: [is_deleted] and
    [deleted_at], which every handler reads or writes, are not created. *)
Theorem migration_0000_lacks_soft_delete_columns :
  column_signature urlsTable =
    [ ("id", text, false); ("name", text, false); ("main_url", text, false);
      ("sub_urls", jsonb, false); ("is_deleted", boolean, false);
      ("deleted_at", timestamp, true); ("created_at", timestamp, false);
      ("updated_at", timestamp, false) ] ∧
  run_migrations [migration_0000] [] = [migration_0000] ∧
  column_signature migration_0000 =
    [ ("id", text, false); ("name", text, false); ("main_url", text, false);
      ("sub_urls", jsonb, false); ("created_at", timestamp, false);
      ("updated_at", timestamp, false) ] ∧
  ("is_deleted" ∉ map col_name (table_columns migration_0000)) ∧
  ("deleted_at" ∉ map col_name (table_columns migration_0000)) ∧
  column_signature migration_0000 ≠ column_signature urlsTable.
Proof.
  repeat split; try done; try compute_done.
Qed.

(** * The theorems at concrete inputs *)

(** The list of [example_db], with the store answering and not. *)
Lemma get_urls_witness :
  (∃ rows,
     get_urls vercel_sql example_db =
       (ok_data (Some (map item_of_row rows)), example_db) ∧
     rows ≡ₚ List.filter (λ r, negb (isDeleted r)) (urls example_db) ∧
     (∀ r, r ∈ rows ↔ r ∈ urls example_db ∧ isDeleted r = false) ∧
     StronglySorted name_le rows) ∧
  get_urls vercel_sql (mkDb false (urls example_db)) =
    (failure "Failed to fetch URLs", mkDb false (urls example_db)).
Proof.
  split.
  - apply (proj1 (get_urls_lists_live_rows_by_name vercel_sql example_db)).
    reflexivity.
  - apply (proj1 (proj2 (get_urls_lists_live_rows_by_name vercel_sql
                           (mkDb false (urls example_db))))).
    reflexivity.
Defined.

(** The ids of [example_db] are distinct. *)
Lemma example_db_pk : pk_ok (urls example_db).
Proof. unfold pk_ok. simpl. compute_done. Qed.

(** Get-by-id of the soft-deleted ["u2"] and of the absent ["u3"]. *)
Lemma get_url_witness :
  get_url vercel_drizzle "u2" example_db = (failure "URL not found", example_db) ∧
  get_url vercel_drizzle "u3" example_db = (failure "URL not found", example_db).
Proof.
  split.
  - apply (proj2 (proj2
      (get_url_finds_the_live_row vercel_drizzle "u2" example_db eq_refl example_db_pk))
      (mkUrlRow "u2" "Alpha" "https://alpha.example"
         {[ "a" := "http://x"; "b" := "http://y" ]} true (Some 15%Z) 11 11));
      [right; left | reflexivity | reflexivity].
  - apply (proj1 (proj2
      (get_url_finds_the_live_row vercel_drizzle "u3" example_db eq_refl example_db_pk))).
    compute_done.
Defined.

(** Create and update with the empty [name], and without a [name]. *)
Lemma post_put_reject_witness :
  (post_route postgres_js "u9" 20 raw_empty_name example_db =
     (handled (failure "Name and mainUrl are required"), example_db) ∧
   put_route postgres_js "u1" 20 raw_empty_name example_db =
     (handled (failure "Name and mainUrl are required"), example_db)) ∧
  (post_route postgres_js "u9" 20 raw_without_name example_db =
     (validation_error, example_db) ∧
   put_route postgres_js "u1" 20 raw_without_name example_db =
     (validation_error, example_db)).
Proof.
  split.
  - apply (proj1 (post_put_reject_empty_or_missing postgres_js "u9" "u1" 20
                    raw_empty_name example_db) "" "https://example.com");
      [reflexivity | reflexivity | discriminate | by left].
  - apply (proj2 (post_put_reject_empty_or_missing postgres_js "u9" "u1" 20
                    raw_without_name example_db)).
    left. reflexivity.
Defined.

(** Update of the soft-deleted ["u2"]. *)
Lemma put_url_absent_or_deleted_witness :
  (put_url postgres_js "u2" 20 example_body example_db).2 = example_db ∧
  (put_url postgres_js "u2" 20 example_body example_db).1 =
    failure "URL not found".
Proof.
  destruct (proj1 (put_url_never_touches_absent_or_deleted postgres_js "u2" 20
                     example_body example_db example_db_pk)) as [Hdb Hresp].
  - right.
    exists (mkUrlRow "u2" "Alpha" "https://alpha.example"
              {[ "a" := "http://x"; "b" := "http://y" ]} true (Some 15%Z) 11 11).
    split; [right; left | split; reflexivity].
  - split; [exact Hdb | apply Hresp; reflexivity].
Defined.

(** Update of the live ["u1"] on a drizzle server. *)
Lemma put_url_overwrites_witness :
  data (put_url postgres_js "u1" 20 example_body example_db).1 =
    Some (updatedUrl "u1" "Example" "https://example.com"
            {[ "a" := "http://x"; "b" := "http://y" ]}) ∧
  mkUrlRow "u1" "Example" "https://example.com"
    {[ "a" := "http://x"; "b" := "http://y" ]} false None 10 20
    ∈ urls (put_url postgres_js "u1" 20 example_body example_db).2.
Proof.
  destruct (put_url_overwrites_and_returns postgres_js "u1" "Example"
              "https://example.com" (Some {[ "a" := "http://x"; "b" := "http://y" ]})
              20 example_db
              (mkUrlRow "u1" "Zeta" "https://zeta.example" ∅ false None 10 10)
              eq_refl eq_refl example_db_pk) as (_ & Hrow & _ & _ & _ & Hdata);
    [left | reflexivity | reflexivity | discriminate | discriminate |].
  split; [exact Hdata | exact Hrow].
Defined.

(** Create with two [subUrls] on a drizzle server, then get-by-id. *)
Lemma drizzle_post_url_then_get_url_witness :
  ∃ item r,
    data (post_url postgres_js "u9" 20 example_body example_db).1 = Some item ∧
    get_url postgres_js (item_id item)
      (post_url postgres_js "u9" 20 example_body example_db).2 =
      (ok_data (Some (item_of_row r)),
       (post_url postgres_js "u9" 20 example_body example_db).2) ∧
    subUrls r = {[ "a" := "http://x"; "b" := "http://y" ]} ∧
    createdAt r = updatedAt r.
Proof.
  destruct (drizzle_post_url_then_get_url postgres_js postgres_js "u9" "Example"
              "https://example.com"
              (Some {[ "a" := "http://x"; "b" := "http://y" ]}) 20 example_db)
    as (item & r & H);
    [reflexivity | reflexivity | compute_done | discriminate | discriminate |].
  exists item, r.
  destruct H as (_ & Hd & _ & _ & _ & _ & Hg & _ & _ & _ & _ & Hs & _ & _ & Ht).
  split; [exact Hd|]. split; [exact Hg|]. split; [by apply Hs | exact Ht].
Defined.

(** A create, a delete and an update in a row; a delete of the live ["u1"]
    of [example_db] on a drizzle server. *)
Lemma deletedAt_iff_isDeleted_witness :
  Forall deleted_consistent
    (urls (run [ request postgres_js (PostUrl "u9" 20 example_body);
                 request vercel_drizzle (DeleteUrl "u9" 30);
                 request postgres_js (PutUrl "u9" 40 example_body) ]
             empty_db)) ∧
  ∃ r', urls (delete_url postgres_js "u1" 30 example_db).2 !! 0 = Some r' ∧
    isDeleted r' = true ∧ deletedAt r' = Some 30%Z.
Proof.
  split.
  - apply (proj1 deletedAt_iff_isDeleted).
  - destruct (proj1 (proj2 (proj2 (proj2 deletedAt_iff_isDeleted)))
                postgres_js "u1" 30%Z example_db 0
                (mkUrlRow "u1" "Zeta" "https://zeta.example" ∅ false None 10 10)
                eq_refl) as (r' & Hr' & _ & _ & Hforced).
    exists r'. split; [exact Hr'|]. apply Hforced; reflexivity.
Defined.

(** The first start on the empty table. *)
Lemma initializeDatabase_witness :
  urls (VercelDrizzle.db
          (VercelDrizzle.initializeDatabase example_uuid example_now
             (VercelDrizzle.mkProcess false empty_db)).2) =
    [bbc_row example_uuid example_now; google_row example_uuid example_now].
Proof.
  apply (initializeDatabase_seeds_once example_uuid example_now empty_db);
    [reflexivity | reflexivity | discriminate].
Defined.

(** * Reads, store failures and the error handler *)

Lemma health_eval sv iso db :
  health sv iso db = (if connected db then health_ok iso else health_down iso, db).
Proof.
  destruct sv; simpl;
    unfold VercelSql.health, VercelDrizzle.health, PostgresJs.health, select_1;
    run_handler; by destruct (connected db).
Qed.

(** X1: list and get-by-id return the database they were given, whatever its
    rows and whether or not the store answers. *)
Theorem reads_leave_the_database (sv : Server) (x : string) (db : Db) :
  (get_urls sv db).2 = db ∧ (get_url sv x db).2 = db.
Proof.
  rewrite get_urls_eval, get_url_eval. by destruct (connected db).
Qed.

(** X2: the health check of each server answers "ok"/"connected" exactly when
    the store answers and "error"/"disconnected" with an [error] text
    otherwise; it carries the time it was given and returns the database it
    was given.  It never fails itself.  The minimal server, which has no
    store, always answers "ok", without a [database] property. *)
Theorem health_reports_the_connection (sv : Server) (iso : string) (db : Db) :
  (health sv iso db).2 = db ∧
  health_timestamp (health sv iso db).1 = iso ∧
  (health_status (health sv iso db).1 = "ok" ↔ connected db = true) ∧
  (health_database (health sv iso db).1 = Some "connected" ↔ connected db = true) ∧
  (health_status (health sv iso db).1 = "error" ↔ connected db = false) ∧
  (health_error (health sv iso db).1 = Some "Database connection failed" ↔
     connected db = false) ∧
  (health_error (health sv iso db).1 = None ↔ connected db = true) ∧
  Minimal.health iso =
    mkHealth "ok" iso None None (Some "Basic server is working").
Proof.
  rewrite health_eval. destruct (connected db); simpl; repeat split; done.
Qed.

(** X3: when the store does not answer, get-by-id, create, update and delete
    answer with their own failure text, "Failed to fetch URL", "Failed to
    create URL", "Failed to update URL", "Failed to delete URL", and the
    database is the one before; for create and update this is so for a body
    that passes validation. *)
Theorem store_failure_is_reported
    (sv : Server) (uuid x : string) (now : Timestamp) (body : Body) (db : Db) :
  connected db = false → valid_body body = true →
  get_url sv x db = (failure "Failed to fetch URL", db) ∧
  post_url sv uuid now body db = (failure "Failed to create URL", db) ∧
  put_url sv x now body db = (failure "Failed to update URL", db) ∧
  delete_url sv x now db = (failure "Failed to delete URL", db).
Proof.
  intros Hc Hv.
  by rewrite get_url_eval, post_url_eval, put_url_eval, delete_url_eval, Hc, Hv,
    andb_false_r.
Qed.

(** X4: a create whose identifier is already the id of a row, soft-deleted
    or not, is refused by the primary key: the answer is "Failed to create
    URL" and no row is added or changed. *)
Theorem post_url_taken_id_fails
    (sv : Server) (uuid : string) (now : Timestamp) (body : Body) (db : Db) :
  uuid ∈ map id (urls db) →
  valid_body body = true →
  post_url sv uuid now body db = (failure "Failed to create URL", db).
Proof.
  intros Hin Hv. rewrite post_url_eval, Hv.
  destruct (drizzle sv && connected db); [|done].
  destruct (existsb (eq_id uuid) (urls db)) eqn:Hex; [done|].
  by apply existsb_eq_id_false in Hex.
Qed.

(** X5: the error handler of the database-backed servers answers with one of
    two fixed texts and never with [data]: status 404 and "Endpoint not
    found" exactly for the code [NOT_FOUND], status 500 and "Internal server
    error" for every other code.  The minimal server instead answers with the
    message of the error itself. *)
Theorem onError_fixed_answers (code : string) :
  success (onError code).2 = false ∧ data (onError code).2 = None ∧
  ((onError code).1 = 404 ↔ code = "NOT_FOUND") ∧
  ((onError code).1 = 500 ↔ code ≠ "NOT_FOUND") ∧
  (error (onError code).2 = Some "Endpoint not found" ↔ code = "NOT_FOUND") ∧
  (error (onError code).2 = Some "Internal server error" ↔ code ≠ "NOT_FOUND") ∧
  (∀ msg, success (Minimal.onError msg) = false ∧ error (Minimal.onError msg) = msg).
Proof.
  unfold onError. destruct (String.eqb code "NOT_FOUND") eqn:E; simpl.
  - apply String.eqb_eq in E. repeat split; try done; by intros.
  - apply String.eqb_neq in E. repeat split; try done; by intros.
Qed.

(** X6: the start of the raw SQL server never fails, and the start of the
    drizzle server over [postgres.js] fails exactly when the store does not
    answer; neither changes the database. *)
Theorem startup_connection_tests (db : Db) :
  VercelSql.testDatabaseConnection db = (Some (), db) ∧
  (PostgresJs.initializeDatabase db).2 = db ∧
  ((PostgresJs.initializeDatabase db).1 = None ↔ connected db = false).
Proof.
  unfold VercelSql.testDatabaseConnection, PostgresJs.initializeDatabase, select_1.
  destruct (connected db); repeat split; done.
Qed.

(** * Soft delete, seen through the other handlers *)


Lemma filter_nil_iff (p : UrlRow → bool) rows :
  List.filter p rows = [] ↔ ∀ r, r ∈ rows → p r = false.
Proof.
  induction rows as [|q rows IH]; simpl.
  - split; [intros _ r Hr; inversion Hr | done].
  - destruct (p q) eqn:E.
    + split; [done|]. intros Hall. specialize (Hall q (list_elem_of_here _ _)).
      congruence.
    + rewrite IH. split.
      * intros Hall r Hr. apply elem_of_cons in Hr as [->|Hr]; auto.
      * intros Hall r Hr. apply Hall. by right.
Qed.

Lemma deleted_rows_not_live x now db :
  live_row x (mkDb true (rows_updated x (set_deleted now) db)) = None.
Proof.
  apply live_row_None. simpl. intros r' Hr' Hid.
  apply rows_updated_elem in Hr' as (r & _ & ->).
  destruct (eq_id x r) eqn:E; [done|].
  apply eq_id_true in Hid. congruence.
Qed.

(** X7: with the store answering, after a delete of an id on a drizzle
    server no server finds the id any more: get-by-id answers "URL not found"
    and no item of the list has the id.  This needs no assumption on the
    table. *)
Theorem delete_url_hides_the_id
    (sv sv' : Server) (x : string) (now : Timestamp) (db : Db) :
  drizzle sv = true → connected db = true →
  let db' := (delete_url sv x now db).2 in
  get_url sv' x db' = (failure "URL not found", db') ∧
  ∃ items, get_urls sv' db' = (ok_data (Some items), db') ∧
    ∀ item, item ∈ items → item_id item ≠ x.
Proof.
  intros Hsv Hc db'. subst db'. rewrite delete_url_eval, Hsv, Hc. simpl.
  rewrite get_url_eval, get_urls_eval. simpl.
  rewrite deleted_rows_not_live. split; [done|].
  eexists. split; [done|]. intros item Hitem.
  apply list_elem_of_fmap in Hitem as (r' & -> & Hr').
  rewrite orderBy_name_perm, list_elem_of_In, filter_In in Hr'.
  destruct Hr' as [Hr' Hlive]. apply eq_isDeleted_true in Hlive.
  apply list_elem_of_In, rows_updated_elem in Hr' as (r & _ & ->).
  simpl. destruct (eq_id x r) eqn:E; [done|].
  intros Hid. apply eq_id_true in Hid. congruence.
Qed.


Lemma rows_updated_none x set db :
  (∀ r, r ∈ urls db → id r ≠ x) → rows_updated x set db = urls db.
Proof.
  unfold rows_updated. intros Hall.
  induction (urls db) as [|r rows IH]; simpl; [done|].
  rewrite IH by (intros r' Hr'; apply Hall; by right).
  destruct (eq_id x r) eqn:E; [|done].
  apply eq_id_true in E. exfalso. apply (Hall r); [by left | done].
Qed.

(** X22: on the two drizzle servers, with the store answering, a delete
    answers [{success:true, message:"URL deleted successfully"}] for every
    id, never "URL not found": also for an id that no row has, in which case
    the UPDATE writes no row and the table is the one before. *)
Theorem drizzle_delete_url_always_ok
    (sv : Server) (x : string) (now : Timestamp) (db : Db) :
  drizzle sv = true → connected db = true →
  (delete_url sv x now db).1 = ok_message "URL deleted successfully" ∧
  (affected x db = 0 → urls (delete_url sv x now db).2 = urls db).
Proof.
  intros Hsv Hc. rewrite delete_url_eval, Hsv, Hc. simpl. split; [done|].
  intros Ha. apply rows_updated_none. by apply affected_0_iff.
Qed.

(** X8: a delete on a drizzle server that follows a delete of the same id,
    on whichever server, answers and leaves the table exactly as that delete
    alone would on the table before: the rows stay soft-deleted and their
    [deletedAt] is the time of the last delete. *)
Theorem delete_url_twice
    (sv sv' : Server) (x : string) (now1 now2 : Timestamp) (db : Db) :
  drizzle sv = true →
  delete_url sv x now2 (delete_url sv' x now1 db).2 = delete_url sv x now2 db.
Proof.
  intros Hsv. rewrite (delete_url_eval sv' x now1 db).
  destruct (drizzle sv' && connected db) eqn:Hw; simpl; [|done].
  apply andb_true_iff in Hw as [_ Hc].
  rewrite !delete_url_eval, Hsv. simpl. rewrite Hc. simpl. f_equal. f_equal.
  unfold rows_updated. simpl. rewrite map_map. apply map_ext.
  intros r. destruct (eq_id x r) eqn:E; [|by rewrite E].
  assert (eq_id x (set_deleted now1 r) = true) as -> by done. done.
Qed.

(** X9: a delete never removes a row: the table keeps its length, every row
    keeps its place, [id], [name], [mainUrl], [subUrls], [createdAt] and
    [updatedAt], and a row with another id is kept entirely. *)
Theorem delete_url_keeps_the_rows
    (sv : Server) (x : string) (now : Timestamp) (db : Db) (i : nat) (r : UrlRow) :
  urls db !! i = Some r →
  length (urls (delete_url sv x now db).2) = length (urls db) ∧
  ∃ r', urls (delete_url sv x now db).2 !! i = Some r' ∧
    id r' = id r ∧ name r' = name r ∧ mainUrl r' = mainUrl r ∧
    subUrls r' = subUrls r ∧ createdAt r' = createdAt r ∧
    updatedAt r' = updatedAt r ∧
    (id r ≠ x → r' = r).
Proof.
  intros Hi. rewrite delete_url_eval.
  destruct (drizzle sv && connected db); simpl; [|split; [done|by exists r]].
  split; [unfold rows_updated; by rewrite length_map|].
  rewrite rows_updated_lookup, Hi. simpl.
  destruct (eq_id x r) eqn:E; eexists; (split; [done|]); repeat split; try done.
  intros Hne. apply eq_id_true in E. congruence.
Qed.

(** X10: with the store answering, get-by-id finds an id exactly when the
    list shows an item with that id. *)
Theorem get_url_iff_listed (sv sv' : Server) (x : string) (db : Db) :
  connected db = true →
  success (get_url sv x db).1 = true ↔
  ∃ items item, data (get_urls sv' db).1 = Some items ∧
    item ∈ items ∧ item_id item = x.
Proof.
  intros Hc. rewrite get_url_eval, get_urls_eval, Hc. simpl. split.
  - destruct (live_row x db) as [r|] eqn:Hl; [|done]. intros _.
    apply live_row_Some_inv in Hl as (Hr & Hid & Hdel).
    eexists _, (item_of_row r). split; [done|]. split; [|done].
    apply list_elem_of_fmap_2.
    rewrite orderBy_name_perm, list_elem_of_In, filter_In.
    split; [by apply list_elem_of_In | by apply eq_isDeleted_true].
  - intros (items & item & [= <-] & Hitem & Hid).
    apply list_elem_of_fmap in Hitem as (r & -> & Hr).
    rewrite orderBy_name_perm, list_elem_of_In, filter_In in Hr.
    destruct Hr as [Hr Hlive]. simpl in Hid.
    destruct (live_row x db) as [r0|] eqn:Hl; [done|]. exfalso.
    unfold live_row in Hl.
    assert (In r (List.filter (and_ (eq_id x) (eq_isDeleted false)) (urls db))) as Hin.
    { apply filter_In. split; [done|]. unfold and_.
      by rewrite (proj2 (eq_id_true x r) Hid), Hlive. }
    destruct (List.filter _ _); [inversion Hin | done].
Qed.

(** * Rows along a history *)

Lemma later_row_refl r : later_row r r.
Proof. by repeat split. Qed.

Lemma later_row_trans r1 r2 r3 :
  later_row r1 r2 → later_row r2 r3 → later_row r1 r3.
Proof.
  intros (Hi & Hc & Hd) (Hi' & Hc' & Hd'). repeat split; [congruence..|auto].
Qed.

Lemma seed_lookup items uuid now k db i r :
  urls db !! i = Some r →
  urls (VercelDrizzle.seed items uuid now k db).2 !! i = Some r.
Proof.
  revert k db. induction items as [|item items IH]; intros k db Hi; simpl.
  - done.
  - run_handler.
    destruct (connected db); simpl; [|done].
    destruct (existsb _ _); simpl; [done|].
    apply IH. simpl. by apply lookup_app_l_Some.
Qed.

Lemma startup_lookup uuid now db i r :
  urls db !! i = Some r → urls (step db (startup uuid now)) !! i = Some r.
Proof.
  intros Hi. unfold step. rewrite initializeDatabase_eval.
  cbn -[VercelDrizzle.seed VercelDrizzle.initialData].
  pose proof (seed_lookup VercelDrizzle.initialData uuid now 0 db i r Hi) as Hs.
  destruct (connected db); [|done].
  destruct (urls db) as [|q rows] eqn:Hu; [|simpl; by rewrite Hu].
  by destruct (VercelDrizzle.seed _ _ _ _ db) as [[u|] db'].
Qed.

Lemma step_later_row db e i r :
  urls db !! i = Some r →
  ∃ r', urls (step db e) !! i = Some r' ∧ later_row r r'.
Proof.
  intros Hi. destruct e as [sv rq|uuid now|up].
  - destruct rq as [|x|uuid now body|x now body|x now]; simpl.
    + rewrite get_urls_eval. exists r. split; [by destruct (connected db)|].
      apply later_row_refl.
    + rewrite get_url_eval. exists r. split; [by destruct (connected db)|].
      apply later_row_refl.
    + rewrite post_url_eval. exists r. split; [|apply later_row_refl].
      destruct (valid_body body), (drizzle sv && connected db); simpl; try done.
      destruct (existsb _ _); simpl; [done|]. by apply lookup_app_l_Some.
    + rewrite put_url_eval.
      destruct (valid_body body), (connected db), (live_row x db), (drizzle sv); simpl;
        try (exists r; split; [done | apply later_row_refl]).
      rewrite rows_updated_lookup, Hi. simpl.
      destruct (eq_id x r); eexists; (split; [done|]);
        [by repeat split | apply later_row_refl].
    + rewrite delete_url_eval.
      destruct (drizzle sv && connected db); simpl;
        [|exists r; split; [done | apply later_row_refl]].
      rewrite rows_updated_lookup, Hi. simpl.
      destruct (eq_id x r); eexists; (split; [done|]);
        [by repeat split | apply later_row_refl].
  - exists r. split; [by apply startup_lookup | apply later_row_refl].
  - exists r. split; [done | apply later_row_refl].
Qed.

Lemma run_later_row events db i r :
  urls db !! i = Some r →
  ∃ r', urls (run events db) !! i = Some r' ∧ later_row r r'.
Proof.
  revert db r. induction events as [|e events IH]; intros db r Hi.
  - exists r. split; [done | apply later_row_refl].
  - destruct (step_later_row db e i r Hi) as (r1 & Hi1 & H1).
    destruct (IH (step db e) r1 Hi1) as (r' & Hi' & H').
    exists r'. split; [done|].
    by apply (later_row_trans r r1 r').
Qed.

(** X11: along every history of requests, process starts and connection
    changes, from any table, a row is never removed: the table never gets
    shorter, and for every row there is, after the history, a row with the
    same [id] and the same [createdAt], soft-deleted if the row was: nothing
    sets [isDeleted] back to false. *)
Theorem rows_persist_along_histories
    (events : list Event) (db : Db) (r : UrlRow) :
  r ∈ urls db →
  length (urls db) ≤ length (urls (run events db)) ∧
  ∃ r', r' ∈ urls (run events db) ∧
    id r' = id r ∧ createdAt r' = createdAt r ∧
    (isDeleted r = true → isDeleted r' = true).
Proof.
  intros Hr. split.
  - destruct (decide (length (urls db) ≤ length (urls (run events db))))
      as [|Hlt]; [done|]. exfalso.
    assert (is_Some (urls db !! length (urls (run events db)))) as [q Hq]
      by (apply lookup_lt_is_Some; lia).
    destruct (run_later_row events db _ q Hq) as (q' & Hq' & _).
    apply lookup_lt_Some in Hq'. lia.
  - apply list_elem_of_lookup_1 in Hr as [i Hi].
    destruct (run_later_row events db i r Hi) as (r' & Hi' & H').
    exists r'. split; [by apply list_elem_of_lookup_2 in Hi' | exact H'].
Qed.

Lemma same_contents_refl r : same_contents r r.
Proof. by repeat split. Qed.

Lemma same_contents_trans r1 r2 r3 :
  same_contents r1 r2 → same_contents r2 r3 → same_contents r1 r3.
Proof.
  intros (?&?&?&?&?&?&?) (?&?&?&?&?&?&?). repeat split; congruence.
Qed.

Lemma step_deleted_row db e i r :
  pk_ok (urls db) → urls db !! i = Some r → isDeleted r = true →
  ∃ r', urls (step db e) !! i = Some r' ∧ same_contents r r'.
Proof.
  intros Hpk Hi Hdel. destruct e as [sv rq|uuid now|up].
  - destruct rq as [|x|uuid now body|x now body|x now]; simpl.
    + rewrite get_urls_eval. exists r. split; [by destruct (connected db)|].
      apply same_contents_refl.
    + rewrite get_url_eval. exists r. split; [by destruct (connected db)|].
      apply same_contents_refl.
    + rewrite post_url_eval. exists r. split; [|apply same_contents_refl].
      destruct (valid_body body), (drizzle sv && connected db); simpl; try done.
      destruct (existsb _ _); simpl; [done|]. by apply lookup_app_l_Some.
    + rewrite put_url_eval. exists r. split; [|apply same_contents_refl].
      destruct (valid_body body), (connected db); try done.
      destruct (live_row x db) as [r0|] eqn:Hl; [|done].
      destruct (drizzle sv); [|done]. simpl.
      rewrite rows_updated_lookup, Hi. simpl.
      destruct (eq_id x r) eqn:E; [|done]. exfalso.
      apply eq_id_true in E.
      apply live_row_Some_inv in Hl as (Hr0 & Hid0 & Hdel0).
      assert (r = r0) as ->.
      { apply (pk_unique (urls db)); try done; [|congruence].
        by apply list_elem_of_lookup_2 in Hi. }
      congruence.
    + rewrite delete_url_eval.
      destruct (drizzle sv && connected db); simpl;
        [|exists r; split; [done | apply same_contents_refl]].
      rewrite rows_updated_lookup, Hi. simpl.
      destruct (eq_id x r); eexists; (split; [done|]);
        [by repeat split | apply same_contents_refl].
  - exists r. split; [by apply startup_lookup | apply same_contents_refl].
  - exists r. split; [done | apply same_contents_refl].
Qed.

(** X12: with [id] the primary key, a soft-deleted row is frozen along every
    history: no request to any server and no process start changes its
    [name], [mainUrl], [subUrls], [isDeleted], [createdAt] or [updatedAt];
    only its [deletedAt] can change, by a further delete. *)
Theorem deleted_rows_are_frozen
    (events : list Event) (db : Db) (i : nat) (r : UrlRow) :
  pk_ok (urls db) → urls db !! i = Some r → isDeleted r = true →
  ∃ r', urls (run events db) !! i = Some r' ∧
    id r' = id r ∧ name r' = name r ∧ mainUrl r' = mainUrl r ∧
    subUrls r' = subUrls r ∧ isDeleted r' = true ∧
    createdAt r' = createdAt r ∧ updatedAt r' = updatedAt r.
Proof.
  revert db r. induction events as [|e events IH]; intros db r Hpk Hi Hdel.
  - exists r. by repeat split.
  - destruct (step_deleted_row db e i r Hpk Hi Hdel) as (r1 & Hi1 & H1).
    assert (isDeleted r1 = true) as Hdel1
      by (destruct H1 as (_&_&_&_&->&_); done).
    destruct (IH (step db e) r1 (step_pk db e Hpk) Hi1 Hdel1) as (r' & Hi' & H').
    exists r'. split; [done|].
    destruct H1 as (?&?&?&?&?&?&?), H' as (?&?&?&?&?&?&?).
    repeat split; congruence.
Qed.

(** * Invariants of the contents *)

Lemma valid_body_str body :
  valid_body body = true →
  body_name body ≠ "" ∧ body_mainUrl body ≠ "".
Proof.
  unfold valid_body, falsy. intros Hv.
  apply negb_true_iff, orb_false_iff in Hv as [Hn Hm].
  by apply String.eqb_neq in Hn, Hm.
Qed.

Section run_invariant.
Variable P : UrlRow → Prop.
Hypothesis P_created : ∀ uuid now body,
  valid_body body = true → P (created_row uuid now body).
Hypothesis P_put : ∀ now body r,
  valid_body body = true → P r → P (put_set now body r).
Hypothesis P_deleted : ∀ now r, P r → P (set_deleted now r).
Hypothesis P_seed : ∀ item i now,
  item ∈ VercelDrizzle.initialData →
  P (mkUrlRow i (VercelDrizzle.seed_name item) (VercelDrizzle.seed_mainUrl item)
       (VercelDrizzle.seed_subUrls item) false None now now).

Lemma handle_Forall sv rq db :
  Forall P (urls db) → Forall P (urls (handle sv rq db)).
Proof using P_created P_put P_deleted.
  intros Hall. destruct rq as [|x|uuid now body|x now body|x now]; simpl.
  - rewrite get_urls_eval. by destruct (connected db).
  - rewrite get_url_eval. by destruct (connected db).
  - rewrite post_url_eval.
    destruct (valid_body body) eqn:Hv, (drizzle sv && connected db); simpl; try done.
    destruct (existsb _ _); simpl; [done|].
    apply Forall_app. split; [done|]. by apply Forall_singleton, P_created.
  - rewrite put_url_eval.
    destruct (valid_body body) eqn:Hv, (connected db), (live_row x db), (drizzle sv);
      simpl; try done.
    apply rows_updated_Forall; [|done]. intros r. by apply P_put.
  - rewrite delete_url_eval. destruct (drizzle sv && connected db); simpl; [|done].
    apply rows_updated_Forall; [|done]. apply P_deleted.
Qed.

Lemma seed_Forall items uuid now k db :
  items ⊆ VercelDrizzle.initialData →
  Forall P (urls db) →
  Forall P (urls (VercelDrizzle.seed items uuid now k db).2).
Proof using P_seed.
  clear P_created P_put P_deleted. revert k db. induction items as [|item items IH]; intros k db Hsub Hall; simpl.
  - done.
  - run_handler.
    destruct (connected db); simpl; [|done].
    destruct (existsb _ _); simpl; [done|].
    apply IH; [set_solver|]. simpl. apply Forall_app. split; [done|].
    apply Forall_singleton, P_seed. set_solver.
Qed.

Lemma run_Forall events db :
  Forall P (urls db) → Forall P (urls (run events db)).
Proof using All.
  revert db. induction events as [|e events IH]; intros db Hall; [done|].
  unfold run. simpl. apply IH.
  destruct e as [sv rq|uuid now|up]; [by apply handle_Forall| |done].
  unfold step. rewrite initializeDatabase_eval.
  cbn -[VercelDrizzle.seed VercelDrizzle.initialData].
  pose proof (seed_Forall VercelDrizzle.initialData uuid now 0 db
                (reflexivity _) Hall) as Hs.
  destruct (connected db); [|done].
  destruct (urls db) as [|r rows] eqn:Hu; [|simpl; by rewrite Hu].
  by destruct (VercelDrizzle.seed _ _ _ _ db) as [[u|] db'].
Qed.
End run_invariant.

(** X13: in every table that a history of requests, process starts and
    connection changes produces from the empty table, every row has a
    non-empty [name] and a non-empty [mainUrl]. *)
Theorem reachable_rows_are_named (events : list Event) :
  Forall named (urls (run events empty_db)).
Proof.
  apply run_Forall; [| | | |constructor].
  - intros uuid now body Hv. by apply valid_body_str.
  - intros now body r Hv _. by apply valid_body_str.
  - intros now r H. exact H.
  - intros item i now Hitem. unfold VercelDrizzle.initialData in Hitem.
    apply elem_of_cons in Hitem as [->|Hitem]; [done|].
    apply list_elem_of_singleton in Hitem as ->. done.
Qed.

(** X14: a request keeps [createdAt] not after [updatedAt] on every row,
    provided that the time of an update is not before the [createdAt] of the
    rows of the table; create and delete need no condition on their time. *)
Theorem handle_keeps_timestamps_ordered (sv : Server) (rq : Request) (db : Db) :
  Forall timestamps_ordered (urls db) →
  (∀ x now body r, rq = PutUrl x now body → r ∈ urls db → (createdAt r ≤ now)%Z) →
  Forall timestamps_ordered (urls (handle sv rq db)).
Proof.
  intros Hall Hclock. destruct rq as [|x|uuid now body|x now body|x now]; simpl.
  - rewrite get_urls_eval. by destruct (connected db).
  - rewrite get_url_eval. by destruct (connected db).
  - rewrite post_url_eval.
    destruct (valid_body body), (drizzle sv && connected db); simpl; try done.
    destruct (existsb _ _); simpl; [done|].
    apply Forall_app. split; [done|]. apply Forall_singleton.
    unfold timestamps_ordered. simpl. lia.
  - rewrite put_url_eval.
    destruct (valid_body body), (connected db), (live_row x db), (drizzle sv); simpl; try done.
    unfold rows_updated. apply Forall_fmap, Forall_forall. intros r Hr. simpl.
    destruct (eq_id x r).
    + unfold timestamps_ordered. simpl. by apply (Hclock x now body).
    + by apply (proj1 (Forall_forall _ _) Hall).
  - rewrite delete_url_eval. destruct (drizzle sv && connected db); simpl; [|done].
    apply rows_updated_Forall; [|done]. by intros r Hr.
Qed.

(** The condition of X14 is needed: an update with a time before [createdAt]
    is written as it comes. *)
Example put_url_with_an_earlier_clock :
  urls (put_url postgres_js "u1" 5 put_example_body put_example_db).2 =
    [ mkUrlRow "u1" "New" "https://new.example" ∅ false None 10 5 ].
Proof. reflexivity. Qed.

(** * Compositions of the handlers *)

Lemma key_unique {K} (key : UrlRow → K) rows r1 r2 :
  NoDup (map key rows) → r1 ∈ rows → r2 ∈ rows → key r1 = key r2 → r1 = r2.
Proof.
  induction rows as [|r rows IH]; simpl; intros Hnd H1 H2 Hk.
  - inversion H1.
  - apply NoDup_cons in Hnd as [Hnotin Hnd].
    apply elem_of_cons in H1 as [->|H1]; apply elem_of_cons in H2 as [->|H2];
      try done.
    + exfalso. apply Hnotin. rewrite Hk. by apply list_elem_of_fmap_2.
    + exfalso. apply Hnotin. rewrite <- Hk. by apply list_elem_of_fmap_2.
    + by apply IH.
Qed.

Lemma filter_Permutation (p : UrlRow → bool) l1 l2 :
  l1 ≡ₚ l2 → List.filter p l1 ≡ₚ List.filter p l2.
Proof.
  induction 1 as [|r l1 l2 _ IH|r q l|l1 l2 l3 _ IH1 _ IH2]; simpl.
  - done.
  - destruct (p r); by rewrite IH.
  - destruct (p r), (p q); try done. apply perm_swap.
  - by rewrite IH1.
Qed.

(** X15: with the store answering and [id] the primary key, a get-by-id, on
    any server, after a successful update on a drizzle server returns the row
    as the update wrote it: the [name], [mainUrl] and [subUrls] of the
    request, [updatedAt] the time of the update, and the [createdAt] and
    [deletedAt] the row had. *)
Theorem put_url_then_get_url
    (sv sv' : Server) (x n m : string) (osub : option SubUrls) (now : Timestamp)
    (db : Db) (r : UrlRow) :
  drizzle sv = true →
  connected db = true → pk_ok (urls db) →
  r ∈ urls db → id r = x → isDeleted r = false →
  n ≠ "" → m ≠ "" →
  let db' := (put_url sv x now (mkBody n m osub) db).2 in
  get_url sv' x db' =
    (ok_data (Some (item_of_row
       (mkUrlRow x n m (default ∅ osub) false (deletedAt r) (createdAt r) now))),
     db').
Proof.
  intros Hsv Hc Hpk Hr Hid Hdel Hn Hm db'. subst db'.
  rewrite put_url_eval, valid_body_Some, Hc, (live_row_Some x db r), Hsv by done.
  simpl. rewrite get_url_eval. simpl.
  set (body := mkBody n m osub).
  rewrite (live_row_Some x _
             (mkUrlRow x n m (default ∅ osub) false (deletedAt r) (createdAt r) now));
    try done; simpl.
  - by apply rows_updated_pk.
  - unfold rows_updated. apply list_elem_of_fmap. exists r. split; [|done].
    rewrite (proj2 (eq_id_true x r) Hid).
    unfold put_set, set_contents, body. simpl. by rewrite Hid, Hdel.
Qed.

(** X16: with the store answering and a fresh identifier, the list, on any
    server, after a create on a drizzle server with non-empty [name] and
    [mainUrl] holds the items of the list before and the created row, and
    nothing else. *)
Theorem post_url_then_get_urls
    (sv sv' : Server) (uuid n m : string) (osub : option SubUrls)
    (now : Timestamp) (db : Db) :
  drizzle sv = true →
  connected db = true → uuid ∉ map id (urls db) →
  n ≠ "" → m ≠ "" →
  ∃ before after,
    data (get_urls sv' db).1 = Some before ∧
    data (get_urls sv'
            (post_url sv uuid now (mkBody n m osub) db).2).1 =
      Some after ∧
    after ≡ₚ
      item_of_row (mkUrlRow uuid n m (default ∅ osub) false None now now)
        :: before.
Proof.
  intros Hsv Hc Hfresh Hn Hm.
  rewrite post_url_eval, valid_body_Some, Hsv, Hc by done.
  rewrite (proj2 (existsb_eq_id_false uuid (urls db))) by done.
  rewrite !get_urls_eval, Hc. simpl.
  eexists _, _. split; [done|]. split; [done|].
  rewrite List.filter_app. simpl.
  change (map item_of_row ?l) with (item_of_row <$> l).
  rewrite !orderBy_name_perm, fmap_app. simpl.
  by rewrite <- Permutation_cons_append.
Qed.

(** X17: when the rows that are not soft-deleted have pairwise distinct
    names, the answer of list does not depend on the storage order of the
    table: two tables with the same rows give the same answer. *)
Theorem get_urls_ignores_storage_order (sv sv' : Server) (db1 db2 : Db) :
  connected db1 = true → connected db2 = true →
  urls db1 ≡ₚ urls db2 →
  NoDup (map name (List.filter (λ r, negb (isDeleted r)) (urls db1))) →
  (get_urls sv db1).1 = (get_urls sv' db2).1.
Proof.
  intros Hc1 Hc2 Hperm Hnames.
  rewrite !get_urls_eval, Hc1, Hc2. simpl. do 3 f_equal.
  assert (List.filter (eq_isDeleted false) (urls db1) =
          List.filter (λ r, negb (isDeleted r)) (urls db1)) as Hf.
  { apply filter_ext. intros r. unfold eq_isDeleted. by destruct (isDeleted r). }
  rewrite <- Hf in Hnames.
  apply (StronglySorted_unique_strong name_le);
    [|apply orderBy_name_sorted..|].
  - intros r1 r2 H1 H2 H12 H21.
    rewrite orderBy_name_perm in H1.
    rewrite orderBy_name_perm, <- (filter_Permutation _ _ _ Hperm) in H2.
    apply (key_unique name _ r1 r2 Hnames H1 H2).
    unfold name_le in *. by apply (anti_symm String.le).
  - rewrite !orderBy_name_perm. by apply filter_Permutation.
Qed.

(** * More on the start of the drizzle server over [@vercel/postgres] *)

(** X18: [initializeDatabase] on a table that has a row, soft-deleted or
    not, inserts nothing and sets [isInitialized]; so on a table whose rows
    are all soft-deleted the seed is not written again and the list is
    empty. *)
Theorem initializeDatabase_skips_a_table_with_rows
    (uuid : nat → string) (now : nat → Timestamp) (db0 : Db) :
  connected db0 = true → urls db0 ≠ [] →
  VercelDrizzle.initializeDatabase uuid now (VercelDrizzle.mkProcess false db0) =
    (Some (), VercelDrizzle.mkProcess true db0) ∧
  (Forall (λ r, isDeleted r = true) (urls db0) →
   VercelDrizzle.get_urls db0 = (ok_data (Some []), db0)).
Proof.
  intros Hc Hrows. split.
  - rewrite initializeDatabase_eval. simpl. rewrite Hc.
    by destruct (urls db0).
  - intros Hall. rewrite (get_urls_eval vercel_drizzle), Hc.
    assert (List.filter (eq_isDeleted false) (urls db0) = []) as ->; [|done].
    apply filter_nil_iff. intros r Hr. unfold eq_isDeleted.
    by rewrite (proj1 (Forall_forall _ _) Hall r Hr).
Qed.

(** X19: when the store does not answer, [initializeDatabase] throws and
    [isInitialized] stays false, with the database as it was; the next call
    therefore runs the migration and the seed check again, and seeds an empty
    table once the store answers. *)
Theorem initializeDatabase_failure_is_retried
    (uuid uuid' : nat → string) (now now' : nat → Timestamp) (rows : list UrlRow) :
  uuid' 0 ≠ uuid' 1 →
  let p0 := VercelDrizzle.mkProcess false (mkDb false rows) in
  VercelDrizzle.initializeDatabase uuid now p0 = (None, p0) ∧
  (rows = [] →
   VercelDrizzle.initializeDatabase uuid' now'
     (VercelDrizzle.mkProcess false (mkDb true rows)) =
     (Some (),
      VercelDrizzle.mkProcess true
        (mkDb true [bbc_row uuid' now'; google_row uuid' now']))).
Proof.
  intros Hne p0. subst p0. split.
  - by rewrite initializeDatabase_eval.
  - intros ->. rewrite initializeDatabase_eval.
    cbn -[VercelDrizzle.seed VercelDrizzle.initialData].
    by rewrite seed_initialData_empty.
Qed.

(** * The migration, run and run again *)

Lemma run_migrations_present ms tables :
  (∀ m, m ∈ ms →
     existsb (λ t, String.eqb (table_name t) (table_name m)) tables = true) →
  run_migrations ms tables = tables.
Proof.
  revert tables. induction ms as [|m ms IH]; intros tables Hall; simpl; [done|].
  rewrite (Hall m) by left. apply IH. intros m' Hm'. apply Hall. by right.
Qed.

Lemma run_migrations_keeps_names ms tables name0 :
  existsb (λ t, String.eqb (table_name t) name0) tables = true →
  existsb (λ t, String.eqb (table_name t) name0) (run_migrations ms tables) = true.
Proof.
  revert tables. induction ms as [|m ms IH]; intros tables Hex; simpl; [done|].
  apply IH.
  destruct (existsb (λ t, String.eqb (table_name t) (table_name m)) tables);
    [done|].
  rewrite existsb_app, Hex. done.
Qed.

Lemma run_migrations_creates ms tables m :
  m ∈ ms →
  existsb (λ t, String.eqb (table_name t) (table_name m))
    (run_migrations ms tables) = true.
Proof.
  revert tables. induction ms as [|m' ms IH]; intros tables Hm; simpl.
  - inversion Hm.
  - apply elem_of_cons in Hm as [<-|Hm]; [|by apply IH].
    apply run_migrations_keeps_names.
    destruct (existsb (λ t, String.eqb (table_name t) (table_name m)) tables)
      eqn:E; [done|].
    rewrite existsb_app. simpl. by rewrite String.eqb_refl, orb_true_r.
Qed.

(** X20: a run of migrations keeps every table the database already has, in
    place and with the columns it has; on a database that has a table named
    [urls] the migration changes nothing; and a second run of the same
    migrations changes nothing. *)
Theorem run_migrations_idempotent (ms tables : list Table) :
  tables `prefix_of` run_migrations ms tables ∧
  (existsb (λ t, String.eqb (table_name t) "urls") tables = true →
   run_migrations [migration_0000] tables = tables) ∧
  run_migrations ms (run_migrations ms tables) = run_migrations ms tables.
Proof.
  split; [|split].
  - revert tables. induction ms as [|m ms IH]; intros tables; simpl; [done|].
    destruct (existsb _ tables); [apply IH|].
    etrans; [|apply IH]. by apply prefix_app_r.
  - intros Hex. simpl. by rewrite Hex.
  - apply run_migrations_present. intros m Hm. by apply run_migrations_creates.
Qed.

(** * The further theorems at concrete inputs *)

(** Every handler against [example_db] with the store not answering. *)
Lemma store_failure_is_reported_witness :
  put_url postgres_js "u1" 20 example_body example_db_down =
    (failure "Failed to update URL", example_db_down).
Proof.
  apply (store_failure_is_reported postgres_js "u9" "u1" 20 example_body
           example_db_down); reflexivity.
Defined.

(** A create with the id of the soft-deleted row ["u2"]. *)
Lemma post_url_taken_id_fails_witness :
  post_url postgres_js "u2" 20 example_body example_db =
    (failure "Failed to create URL", example_db).
Proof.
  apply post_url_taken_id_fails; [right; left | reflexivity].
Defined.

(** Delete of ["u1"], then get-by-id. *)
Lemma delete_url_hides_the_id_witness :
  get_url postgres_js "u1" (delete_url postgres_js "u1" 20 example_db).2 =
    (failure "URL not found", (delete_url postgres_js "u1" 20 example_db).2).
Proof.
  apply (delete_url_hides_the_id postgres_js postgres_js "u1" 20 example_db);
    reflexivity.
Defined.

(** A delete of ["u1"] at time 30 after a delete at time 20. *)
Lemma delete_url_twice_witness :
  urls (delete_url postgres_js "u1" 30
          (delete_url vercel_drizzle "u1" 20 example_db).2).2 =
    urls (delete_url postgres_js "u1" 30 example_db).2.
Proof.
  rewrite (delete_url_twice postgres_js vercel_drizzle "u1" 20 30 example_db);
    reflexivity.
Defined.

(** Delete of ["u1"], seen from the row ["u2"]. *)
Lemma delete_url_keeps_the_rows_witness :
  length (urls (delete_url vercel_drizzle "u1" 20 example_db).2) = 2.
Proof.
  apply (delete_url_keeps_the_rows vercel_drizzle "u1" 20 example_db 1
           (mkUrlRow "u2" "Alpha" "https://alpha.example"
              {[ "a" := "http://x"; "b" := "http://y" ]} true (Some 15%Z) 11 11)).
  reflexivity.
Defined.

(** The live ["u1"] is found and listed. *)
Lemma get_url_iff_listed_witness :
  success (get_url vercel_sql "u1" example_db).1 = true ↔
  ∃ items item, data (get_urls postgres_js example_db).1 = Some items ∧
    item ∈ items ∧ item_id item = "u1".
Proof.
  apply get_url_iff_listed. reflexivity.
Defined.

(** The row ["u1"] through an update, a delete and a create. *)
Lemma rows_persist_along_histories_witness :
  ∃ r', r' ∈ urls (run [ request postgres_js (PutUrl "u1" 20 example_body);
                         request vercel_drizzle (DeleteUrl "u1" 30);
                         request vercel_drizzle (PostUrl "u9" 40 example_body) ]
                     example_db) ∧
    id r' = "u1" ∧ createdAt r' = 10%Z ∧ (false = true → isDeleted r' = true).
Proof.
  apply (rows_persist_along_histories
           [ request postgres_js (PutUrl "u1" 20 example_body);
             request vercel_drizzle (DeleteUrl "u1" 30);
             request vercel_drizzle (PostUrl "u9" 40 example_body) ]
           example_db
           (mkUrlRow "u1" "Zeta" "https://zeta.example" ∅ false None 10 10)).
  left.
Defined.

(** The soft-deleted ["u2"] through an update and a delete of its id. *)
Lemma deleted_rows_are_frozen_witness :
  ∃ r', urls (run [ request postgres_js (PutUrl "u2" 20 example_body);
                    request vercel_drizzle (DeleteUrl "u2" 30) ]
                example_db) !! 1 = Some r' ∧
    id r' = "u2" ∧ name r' = "Alpha" ∧ mainUrl r' = "https://alpha.example" ∧
    subUrls r' = {[ "a" := "http://x"; "b" := "http://y" ]} ∧
    isDeleted r' = true ∧ createdAt r' = 11%Z ∧ updatedAt r' = 11%Z.
Proof.
  exact (deleted_rows_are_frozen
           [ request postgres_js (PutUrl "u2" 20 example_body);
             request vercel_drizzle (DeleteUrl "u2" 30) ]
           example_db 1
           (mkUrlRow "u2" "Alpha" "https://alpha.example"
              {[ "a" := "http://x"; "b" := "http://y" ]} true (Some 15%Z) 11 11)
           example_db_pk eq_refl eq_refl).
Defined.

(** An update of ["u1"] at a time after the rows were created. *)
Lemma handle_keeps_timestamps_ordered_witness :
  Forall timestamps_ordered
    (urls (handle postgres_js (PutUrl "u1" 20 example_body) example_db)).
Proof.
  apply handle_keeps_timestamps_ordered.
  - repeat constructor; unfold timestamps_ordered; simpl; lia.
  - intros x now body r [= _ <- _] Hr.
    apply elem_of_cons in Hr as [->|Hr]; [simpl; lia|].
    apply list_elem_of_singleton in Hr as ->. simpl. lia.
Defined.

(** Update of ["u1"] on a drizzle server, then get-by-id. *)
Lemma put_url_then_get_url_witness :
  get_url postgres_js "u1" (put_url postgres_js "u1" 20 example_body example_db).2 =
    (ok_data (Some (item_of_row
       (mkUrlRow "u1" "Example" "https://example.com"
          {[ "a" := "http://x"; "b" := "http://y" ]} false None 10 20))),
     (put_url postgres_js "u1" 20 example_body example_db).2).
Proof.
  exact (put_url_then_get_url postgres_js postgres_js "u1" "Example"
           "https://example.com" (Some {[ "a" := "http://x"; "b" := "http://y" ]})
           20 example_db
           (mkUrlRow "u1" "Zeta" "https://zeta.example" ∅ false None 10 10)
           eq_refl eq_refl example_db_pk (list_elem_of_here _ _) eq_refl eq_refl
           ltac:(discriminate) ltac:(discriminate)).
Defined.

(** A create of ["u9"], then the list. *)
Lemma post_url_then_get_urls_witness :
  ∃ before after,
    data (get_urls postgres_js example_db).1 = Some before ∧
    data (get_urls postgres_js
            (post_url postgres_js "u9" 20 example_body example_db).2).1 =
      Some after ∧
    after ≡ₚ
      item_of_row (mkUrlRow "u9" "Example" "https://example.com"
                     {[ "a" := "http://x"; "b" := "http://y" ]} false None 20 20)
        :: before.
Proof.
  exact (post_url_then_get_urls postgres_js postgres_js "u9" "Example"
           "https://example.com" (Some {[ "a" := "http://x"; "b" := "http://y" ]})
           20 example_db eq_refl eq_refl ltac:(compute_done)
           ltac:(discriminate) ltac:(discriminate)).
Defined.

(** [example_db] and the same rows stored the other way round. *)
Lemma get_urls_ignores_storage_order_witness :
  (get_urls vercel_sql example_db).1 = (get_urls postgres_js example_db_swapped).1.
Proof.
  apply get_urls_ignores_storage_order;
    [reflexivity | reflexivity | apply perm_swap | simpl; compute_done].
Defined.

(** A start on a table whose only row is soft-deleted. *)
Lemma initializeDatabase_skips_witness :
  VercelDrizzle.get_urls deleted_only_db = (ok_data (Some []), deleted_only_db).
Proof.
  apply (initializeDatabase_skips_a_table_with_rows example_uuid example_now
           deleted_only_db); [reflexivity | discriminate |].
  repeat constructor.
Defined.

(** A failed start on the empty table, then a start with the store back. *)
Lemma initializeDatabase_failure_is_retried_witness :
  VercelDrizzle.initializeDatabase example_uuid example_now
    (VercelDrizzle.mkProcess false (mkDb false [])) =
    (None, VercelDrizzle.mkProcess false (mkDb false [])).
Proof.
  apply (initializeDatabase_failure_is_retried example_uuid example_uuid
           example_now example_now []).
  discriminate.
Defined.

(** The migration on a database that has the table of [db/schema.ts]. *)
Lemma run_migrations_idempotent_witness :
  run_migrations [migration_0000] [urlsTable] = [urlsTable].
Proof.
  apply (proj1 (proj2 (run_migrations_idempotent [migration_0000] [urlsTable]))).
  reflexivity.
Defined.

(** A delete of the id ["u3"], which no row of [example_db] has. *)
Lemma drizzle_delete_url_always_ok_witness :
  (delete_url postgres_js "u3" 20 example_db).1 =
    ok_message "URL deleted successfully" ∧
  urls (delete_url postgres_js "u3" 20 example_db).2 = urls example_db.
Proof.
  destruct (drizzle_delete_url_always_ok postgres_js "u3" 20 example_db
              eq_refl eq_refl) as [Hok Hsame].
  split; [exact Hok | apply Hsame; reflexivity].
Defined.
